(** * sphenixprod: the ROOT macros GetEntries.C, GetEntriesAndEventNr.C
      and GetNumbers.C

    Each macro opens a ROOT file, looks up the tree "T", and reports the
    number of entries together with the event number of the first and of
    the last entry.  The macros are embedded as programs of a small
    state-and-fault monad over an explicit process state; the calls into
    ROOT (TFile, TTree, TLeaf, TSystem) and into FROG are the primitive
    operations of that monad. *)

From Stdlib Require Import ZArith String List Bool Lia DecimalString.
From Stdlib Require Import Decimal DecimalPos DecimalZ.
Import ListNotations.

Open Scope Z_scope.

(** ** Machine integers *)

(** [int] is 32 bits wide, [Long64_t] and [long] are 64 bits wide.  A value
    is kept as a [Z]; conversion to a narrower signed type reduces it modulo
    the width and reads the result as signed. *)
Definition wrap32 (z : Z) : Z := (z + 2147483648) mod 4294967296 - 2147483648.
Definition wrap64 (z : Z) : Z :=
  (z + 9223372036854775808) mod 18446744073709551616 - 9223372036854775808.

(** [a - b] on [int] and on [Long64_t].  The macros subtract 1 from a count;
    where that leaves the range of the type the two's-complement result is
    taken. *)
Definition sub32 (a b : Z) : Z := wrap32 (a - b).
Definition sub64 (a b : Z) : Z := wrap64 (a - b).

Arguments wrap32 : simpl never.
Arguments wrap64 : simpl never.
Arguments sub32 : simpl never.
Arguments sub64 : simpl never.

(** [cout << n] for an integer [n]: its decimal representation. *)
Definition show (n : Z) : string := NilZero.string_of_int (Z.to_int n).
Arguments show : simpl never.
Arguments String.append : simpl never.

(** ** What a ROOT file holds *)

(** The object a "DST#Sync" branch stores per entry; [EventNumber] is its
    accessor. *)
Record SyncObjectv1 := mkSync { EventNumber : Z }.

(** A leaf: the column of values on disk, and the content of its buffer as
    long as no entry has been loaded. *)
Record TLeafData := mkLeaf {
  fValue : Z;
  fColumn : Z -> Z
}.

(** A branch of objects: the object per entry, and the object the framework
    allocates for a null pointer when the address of the branch is set. *)
Record TBranchData := mkBranch {
  fOnBind : SyncObjectv1;
  fObjects : Z -> SyncObjectv1
}.

Record TTreeData := mkTree {
  fEntries : Z;
  fLeaves : string -> option TLeafData;
  fBranches : string -> option TBranchData
}.

Record TFileData := mkFile {
  fKeys : string -> option TTreeData
}.

(** ** Output *)

(** What is written to the console or to a redirected file: a line of text,
    the table that [TTree::Scan] prints for the given arguments, or what is
    reported on standard error when the process faults. *)
Inductive Out : Type :=
| Line (text : string)
| ScanTable (varexp selection option : string) (nentries firstentry : Z)
| Diagnostic.

(** ** The process *)

(** The directory is kept by path: whether a file is there, the ROOT
    objects it holds (none for a file that cannot be opened as a ROOT file)
    and the text at its end.  Text written to a file is added at its end
    and leaves the objects alone. *)
Record Proc := mkProc {
  frog : string -> string;                 (* FROG::location *)
  present : string -> bool;                (* files that exist, by path *)
  files : string -> option TFileData;      (* their ROOT objects *)
  texts : string -> list Out;              (* the text at their end *)
  redirect : option string;                (* target of RedirectOutput *)
  console : list Out;                      (* standard output *)
  errors : list Out;                       (* standard error: fault reports *)
  fReadEntry : option Z;                   (* entry held by the buffers *)
  requested : list Z;                      (* entries asked of the tree *)
  fAddress : option TBranchData;           (* branch bound to [sync] *)
  sync : option SyncObjectv1               (* the pointer [sync] *)
}.

Definition set_present (e : string -> bool) (p : Proc) : Proc :=
  mkProc (frog p) e (files p) (texts p) (redirect p) (console p) (errors p)
         (fReadEntry p) (requested p) (fAddress p) (sync p).
Definition set_texts (t : string -> list Out) (p : Proc) : Proc :=
  mkProc (frog p) (present p) (files p) t (redirect p) (console p) (errors p)
         (fReadEntry p) (requested p) (fAddress p) (sync p).
Definition set_redirect (r : option string) (p : Proc) : Proc :=
  mkProc (frog p) (present p) (files p) (texts p) r (console p) (errors p)
         (fReadEntry p) (requested p) (fAddress p) (sync p).
Definition set_console (c : list Out) (p : Proc) : Proc :=
  mkProc (frog p) (present p) (files p) (texts p) (redirect p) c (errors p)
         (fReadEntry p) (requested p) (fAddress p) (sync p).
Definition set_errors (e : list Out) (p : Proc) : Proc :=
  mkProc (frog p) (present p) (files p) (texts p) (redirect p) (console p) e
         (fReadEntry p) (requested p) (fAddress p) (sync p).
Definition set_fReadEntry (e : option Z) (p : Proc) : Proc :=
  mkProc (frog p) (present p) (files p) (texts p) (redirect p) (console p)
         (errors p) e (requested p) (fAddress p) (sync p).
Definition set_requested (r : list Z) (p : Proc) : Proc :=
  mkProc (frog p) (present p) (files p) (texts p) (redirect p) (console p)
         (errors p) (fReadEntry p) r (fAddress p) (sync p).
Definition set_fAddress (b : option TBranchData) (p : Proc) : Proc :=
  mkProc (frog p) (present p) (files p) (texts p) (redirect p) (console p)
         (errors p) (fReadEntry p) (requested p) b (sync p).
Definition set_sync (s : option SyncObjectv1) (p : Proc) : Proc :=
  mkProc (frog p) (present p) (files p) (texts p) (redirect p) (console p)
         (errors p) (fReadEntry p) (requested p) (fAddress p) s.

(** A fresh process: nothing printed, nothing loaded, nothing bound.  The
    files that exist are those that hold ROOT objects or text. *)
Definition boot (loc : string -> string) (fs : string -> option TFileData)
  (txt : string -> list Out) : Proc :=
  mkProc loc
         (fun path => match fs path, txt path with
                      | None, [] => false
                      | _, _ => true
                      end)
         fs txt None [] [] None [] None None.

(** The file at a path as it is on disk. *)
Record OnDisk := mkOnDisk {
  objects : option TFileData;
  text : list Out
}.

Definition on_disk (p : Proc) (path : string) : option OnDisk :=
  if present p path then Some (mkOnDisk (files p path) (texts p path))
  else None.

(** ** The monad: state, and a fault when a null pointer is dereferenced *)

Inductive Outcome (A : Type) : Type :=
| Done (a : A) (p : Proc)
| Segv (p : Proc).
Arguments Done {A} a p.
Arguments Segv {A} p.

Definition Run (A : Type) : Type := Proc -> Outcome A.

Definition ret {A} (a : A) : Run A := fun p => Done a p.

Definition bind {A B} (m : Run A) (k : A -> Run B) : Run B :=
  fun p => match m p with
           | Done a p' => k a p'
           | Segv p' => Segv p'
           end.

Declare Scope run_scope.
Delimit Scope run_scope with run.
Notation "x <- m ;; k" := (bind m (fun x => k))
  (at level 61, m at next level, right associativity) : run_scope.
Notation "m ;; k" := (bind m (fun _ => k))
  (at level 61, right associativity) : run_scope.
Open Scope run_scope.

(** The state a run ends in, and whether it ended in a fault. *)
Definition final {A} (o : Outcome A) : Proc :=
  match o with Done _ p => p | Segv p => p end.
Definition faulted {A} (o : Outcome A) : bool :=
  match o with Done _ _ => false | Segv _ => true end.

(** Standard output and standard error go to the console, or both to the
    end of the file named by [RedirectOutput]. *)
Definition append_to (name : string) (o : Out) (p : Proc) : Proc :=
  set_texts (fun n => if String.eqb n name then texts p n ++ [o]
                      else texts p n) p.

Definition write (o : Out) (p : Proc) : Proc :=
  match redirect p with
  | None => set_console (console p ++ [o]) p
  | Some name => append_to name o p
  end.

Definition complain (o : Out) (p : Proc) : Proc :=
  match redirect p with
  | None => set_errors (errors p ++ [o]) p
  | Some name => append_to name o p
  end.

(** [ptr->...]: a null pointer faults, which is reported on standard
    error. *)
Definition deref {A} (ptr : option A) : Run A :=
  fun p => match ptr with
           | Some a => Done a p
           | None => Segv (complain Diagnostic p)
           end.

Definition modify (f : Proc -> Proc) : Run unit := fun p => Done tt (f p).
Definition gets {A} (f : Proc -> A) : Run A := fun p => Done (f p) p.

(** ** The framework calls the macros make *)

(** [gSystem->IgnoreSignal] for every signal, and [gSystem->Load]: they
    change how the process dies and which libraries it holds, nothing that a
    report depends on. *)
Definition gSystem_IgnoreSignals : Run unit := ret tt.
Definition gSystem_Load (lib : string) : Run unit := ret tt.

(** [fr->location(file)].  GetEntries.C and GetNumbers.C built without
    OFFLINE_MAIN open [file] itself: there [frog] is the identity. *)
Definition FROG_location (file : string) : Run string :=
  gets (fun p => frog p file).

(** [TFile::Open(path)]: a null pointer when the file cannot be opened. *)
Definition TFile_Open (path : string) : Run (option TFileData) :=
  gets (fun p => files p path).

(** [f->Get(key)] *)
Definition TFile_Get (f : option TFileData) (key : string)
  : Run (option TTreeData) :=
  fd <- deref f ;; ret (fKeys fd key).

(** [T->GetEntries()], a [Long64_t]. *)
Definition TTree_GetEntries (T : option TTreeData) : Run Z :=
  t <- deref T ;; ret (fEntries t).

(** [T->GetLeaf(name)] *)
Definition TTree_GetLeaf (T : option TTreeData) (name : string)
  : Run (option TLeafData) :=
  t <- deref T ;; ret (fLeaves t name).

(** The entries a tree holds are those of [0, fEntries). *)
Definition inside (t : TTreeData) (entry : Z) : bool :=
  (0 <=? entry) && (entry <? fEntries t).

(** What [TTree::GetEntry] does to the process: the request is noted; an
    entry the tree does not hold loads nothing; an entry it holds is loaded
    into the leaf buffers and into the object a bound pointer refers to. *)
Definition load (t : TTreeData) (entry : Z) (p : Proc) : Proc :=
  let p1 := set_requested (requested p ++ [entry]) p in
  if inside t entry then
    set_sync (match fAddress p1 with
              | Some b => Some (fObjects b entry)
              | None => sync p1
              end)
             (set_fReadEntry (Some entry) p1)
  else p1.

(** [T->GetEntry(entry)] *)
Definition TTree_GetEntry (T : option TTreeData) (entry : Z) : Run unit :=
  t <- deref T ;; modify (load t entry).

(** The buffer of a leaf: the value of the entry loaded last, or what the
    buffer held before any entry was loaded. *)
Definition buffer (lf : TLeafData) (p : Proc) : Z :=
  match fReadEntry p with
  | Some i => fColumn lf i
  | None => fValue lf
  end.

(** [l->GetValueLong64()] *)
Definition TLeaf_GetValueLong64 (l : option TLeafData) : Run Z :=
  lf <- deref l ;; gets (buffer lf).

(** [T->SetBranchAddress(bname, &sync)] with [sync] null: an unknown
    branch leaves the pointer alone, a known one gets an object allocated
    that the pointer then refers to. *)
Definition TTree_SetBranchAddress (T : option TTreeData) (bname : string)
  : Run unit :=
  t <- deref T ;;
  match fBranches t bname with
  | None => ret tt
  | Some b =>
      modify (fun p => set_sync (Some (fOnBind b)) (set_fAddress (Some b) p))
  end.

(** [sync->EventNumber()], an [int] widened to [long]. *)
Definition SyncObject_EventNumber (s : option SyncObjectv1) : Run Z :=
  o <- deref s ;; ret (EventNumber o).

(** [cout << text << endl] *)
Definition cout (text : string) : Run unit := modify (write (Line text)).

(** [gSystem->RedirectOutput(name)]: standard output and standard error
    are reopened on the file, for appending by default, which creates the
    file when it is not there. *)
Definition reopen (name : string) (p : Proc) : Proc :=
  set_redirect (Some name)
    (set_present (fun n => if String.eqb n name then true else present p n) p).

Definition gSystem_RedirectOutput (name : string) : Run unit :=
  modify (reopen name).

(** [T->SetScanField(n)] *)
Definition TTree_SetScanField (T : option TTreeData) (n : Z) : Run unit :=
  _ <- deref T ;; ret tt.

(** [T->Scan(varexp, selection, option, nentries, firstentry)] *)
Definition TTree_Scan (T : option TTreeData)
  (varexp selection option : string) (nentries firstentry : Z) : Run unit :=
  _ <- deref T ;;
  modify (write (ScanTable varexp selection option nentries firstentry)).

(** ** The macros *)

Open Scope string_scope.

(** GetEntries.C *)
Definition GetEntries (file : string) : Run unit :=
  gSystem_IgnoreSignals ;;
  path <- FROG_location file ;;
  f <- TFile_Open path ;;
  cout ("Getting events for " ++ file) ;;
  T <- TFile_Get f "T" ;;
  nEntries <- (if T is Some _ then n <- TTree_GetEntries T ;; ret (wrap32 n)
               else ret (-1)) ;;
  cout ("Number of Entries: " ++ show nEntries) ;;
  l <- TTree_GetLeaf T "eventnumber" ;;
  ev <- (if l is Some _ then
           TTree_GetEntry T 0 ;;
           firstEvent <- TLeaf_GetValueLong64 l ;;
           TTree_GetEntry T (sub32 nEntries 1) ;;
           lastEvent <- TLeaf_GetValueLong64 l ;;
           ret (firstEvent, lastEvent)
         else ret (-1, -1)) ;;
  cout ("First event number: " ++ show (fst ev)) ;;
  cout ("Last event number: " ++ show (snd ev)).

(** GetEntriesAndEventNr.C *)
Definition GetEntriesAndEventNr (file : string) : Run unit :=
  gSystem_Load "libFROG.so" ;;
  gSystem_Load "libg4dst.so" ;;
  gSystem_IgnoreSignals ;;
  path <- FROG_location file ;;
  f <- TFile_Open path ;;
  cout ("Getting events for " ++ file) ;;
  T <- TFile_Get f "T" ;;
  (if T is Some _ then n <- TTree_GetEntries T ;; cout ("Number of Entries: " ++ show n)
   else cout "Number of Entries: -2") ;;
  ev <- (if T is Some _ then
           modify (set_sync None) ;;
           TTree_SetBranchAddress T "DST#Sync" ;;
           TTree_GetEntry T 0 ;;
           s <- gets sync ;;
           firstEvent <- (if s is Some _ then SyncObject_EventNumber s else ret (-1)) ;;
           n <- TTree_GetEntries T ;;
           TTree_GetEntry T (sub64 n 1) ;;
           s <- gets sync ;;
           lastEvent <- (if s is Some _ then SyncObject_EventNumber s else ret (-1)) ;;
           ret (firstEvent, lastEvent)
         else ret (-1, -1)) ;;
  cout ("First event number: " ++ show (fst ev)) ;;
  cout ("Last event number: " ++ show (snd ev)).

(** GetNumbers.C *)
Definition GetNumbers (file : string) : Run unit :=
  gSystem_IgnoreSignals ;;
  path <- FROG_location file ;;
  f <- TFile_Open path ;;
  gSystem_RedirectOutput "numbers.txt" ;;
  T <- TFile_Get f "T" ;;
  let nEntries := -1 in
  if T is Some _ then
    TTree_SetScanField T 0 ;;
    n <- TTree_GetEntries T ;;
    let nEntries := wrap32 n in
    cout ("nEntries " ++ show nEntries) ;;
    TTree_Scan T "eventnumber" "" "" 1 0 ;;
    TTree_Scan T "eventnumber" "" "" 1 (sub32 nEntries 1)
  else
    cout " ***** T is null, dummy values" ;;
    cout ("dummyEntries " ++ show nEntries) ;;
    cout ("dummyFirst " ++ show (-1)) ;;
    cout ("dummyLast " ++ show (-1)).

(** ** Example files *)

Definition only (key : string) {A} (a : A) : string -> option A :=
  fun k => if String.eqb k key then Some a else None.
Definition nothing {A} : string -> option A := fun _ => None.

(** Three entries with event numbers 101, 102, 103, stored both as the leaf
    "eventnumber" and in the "DST#Sync" branch. *)
Definition leaf3 : TLeafData := mkLeaf 0 (fun i => 101 + i).
Definition branch3 : TBranchData :=
  mkBranch (mkSync 0) (fun i => mkSync (101 + i)).
Definition tree3 : TTreeData :=
  mkTree 3 (only "eventnumber" leaf3) (only "DST#Sync" branch3).
Definition file3 : TFileData := mkFile (only "T" tree3).

(** A file without the tree "T". *)
Definition file_noT : TFileData := mkFile nothing.

(** A tree with no entries. *)
Definition tree0 : TTreeData :=
  mkTree 0 (only "eventnumber" leaf3) (only "DST#Sync" branch3).
Definition file0 : TFileData := mkFile (only "T" tree0).

(** A tree of three entries with neither the leaf nor the branch. *)
Definition tree_bare : TTreeData := mkTree 3 nothing nothing.
Definition file_bare : TFileData := mkFile (only "T" tree_bare).

(** A tree with 2^31 entries, and the same without leaf and branch. *)
Definition tree_big : TTreeData :=
  mkTree 2147483648 (only "eventnumber" (mkLeaf 0 (fun i => i)))
         (only "DST#Sync" (mkBranch (mkSync 0) (fun i => mkSync 7))).
Definition file_big : TFileData := mkFile (only "T" tree_big).
Definition tree_big_bare : TTreeData := mkTree 2147483648 nothing nothing.
Definition file_big_bare : TFileData := mkFile (only "T" tree_big_bare).

Definition disk (fd : TFileData) : string -> option TFileData :=
  only "run.root" fd.
Definition no_text : string -> list Out := fun _ => [].



(** ** The report of the console macros, and the dump of GetNumbers *)

Definition report (file : string) (n first last : Z) : list Out :=
  [ Line ("Getting events for " ++ file);
    Line ("Number of Entries: " ++ show n);
    Line ("First event number: " ++ show first);
    Line ("Last event number: " ++ show last) ].

Definition dump (n row : Z) : list Out :=
  [ Line ("nEntries " ++ show n);
    ScanTable "eventnumber" "" "" 1 0;
    ScanTable "eventnumber" "" "" 1 row ].

Definition dummies : list Out :=
  [ Line " ***** T is null, dummy values";
    Line "dummyEntries -1";
    Line "dummyFirst -1";
    Line "dummyLast -1" ].

(** The process once the first two lines are printed. *)
Definition counted (file : string) (n : Z) (p : Proc) : Proc :=
  write (Line ("Number of Entries: " ++ show n))
    (write (Line ("Getting events for " ++ file)) p).

(** The pointer [sync] of GetEntriesAndEventNr.C once the address of the
    branch is set (line 37). *)
Definition sync_after_binding (t : TTreeData) (p : Proc)
  : option SyncObjectv1 :=
  sync (final ((modify (set_sync None) ;;
                TTree_SetBranchAddress (Some t) "DST#Sync") p)).

(** GetEntriesAndEventNr.C tests the pointer [sync] twice: after the address
    is set and entry 0 is asked for (line 39), and after the last entry is
    asked for as well (line 44).  These are the states it tests it in. *)
Definition at_first_test (t : TTreeData) (p : Proc) : Proc :=
  final ((modify (set_sync None) ;;
          TTree_SetBranchAddress (Some t) "DST#Sync" ;;
          TTree_GetEntry (Some t) 0) p).

Definition at_second_test (t : TTreeData) (p : Proc) : Proc :=
  final (TTree_GetEntry (Some t) (sub64 (fEntries t) 1) (at_first_test t p)).

(** What the macro takes from the pointer: the event number of the object,
    or the initial -1 under a null pointer. *)
Definition event (s : option SyncObjectv1) : Z :=
  match s with Some o => EventNumber o | None => -1 end.

(** A second run of a macro: a new process over the files and text files
    the first run left behind. *)
Definition rerun (macro : string -> Run unit) (file : string)
  (loc : string -> string) (fs : string -> option TFileData)
  (txt : string -> list Out) : Outcome unit :=
  let p1 := final (macro file (boot loc fs txt)) in
  macro file (boot loc (files p1) (texts p1)).

(** A program keeps an observation [obs] of the process when every run of it,
    finished or faulted, ends in a state with the observation it began
    with. *)
Definition keeps {X A} (obs : Proc -> X) (m : Run A) : Prop :=
  forall p, obs (final (m p)) = obs p.

(** More example files.  A tree of 2^32 + 3 entries and one of 2^31 + 5
    entries, with a leaf that holds the number of the entry; and a tree like
    [tree3] whose middle entry carries another event number. *)
Definition tree_wrapped : TTreeData :=
  mkTree 4294967299 (only "eventnumber" (mkLeaf 0 (fun i => i))) nothing.
Definition file_wrapped : TFileData := mkFile (only "T" tree_wrapped).
Definition tree_negative : TTreeData :=
  mkTree 2147483653 (only "eventnumber" (mkLeaf 0 (fun i => i))) nothing.
Definition file_negative : TFileData := mkFile (only "T" tree_negative).

Definition leaf3' : TLeafData :=
  mkLeaf 0 (fun i => if Z.eqb i 1 then 777 else 101 + i).
Definition branch3' : TBranchData :=
  mkBranch (mkSync 0)
           (fun i => mkSync (if Z.eqb i 1 then 777 else 101 + i)).
Definition tree3' : TTreeData :=
  mkTree 3 (only "eventnumber" leaf3') (only "DST#Sync" branch3').
Definition file3' : TFileData := mkFile (only "T" tree3').

(** The directory as a whole, and programs that keep an observation as long
    as a condition on the process holds, which they keep as well. *)
Definition directory (p : Proc) :=
  (present p, files p, texts p).

Definition keeps_while {X A} (inv : Proc -> Prop) (obs : Proc -> X)
  (m : Run A) : Prop :=
  forall p, inv p -> inv (final (m p)) /\ obs (final (m p)) = obs p.

Definition on_console (p : Proc) : Prop := redirect p = None.

(** * Properties *)

(** ** Machine integers *)

Lemma wrap32_small z : -2147483648 <= z < 2147483648 -> wrap32 z = z.
Proof. intros H. unfold wrap32. rewrite Z.mod_small; lia. Qed.

Lemma wrap64_small z :
  -9223372036854775808 <= z < 9223372036854775808 -> wrap64 z = z.
Proof. intros H. unfold wrap64. rewrite Z.mod_small; lia. Qed.

Lemma wrap32_range z : -2147483648 <= wrap32 z < 2147483648.
Proof.
  unfold wrap32.
  pose proof (Z.mod_pos_bound (z + 2147483648) 4294967296 ltac:(lia)). lia.
Qed.

Lemma wrap32_congruent z : (wrap32 z - z) mod 4294967296 = 0.
Proof.
  unfold wrap32.
  rewrite (Z.mod_eq (z + 2147483648) 4294967296) by lia.
  replace (z + 2147483648 - 4294967296 * ((z + 2147483648) / 4294967296)
           - 2147483648 - z)
    with ((- ((z + 2147483648) / 4294967296)) * 4294967296) by lia.
  apply Z.mod_mul. lia.
Qed.

(** ** How [load] and [write] act on the fields of the process *)

Lemma load_requested t e p : requested (load t e p) = (requested p ++ [e])%list.
Proof. unfold load. destruct (inside t e); reflexivity. Qed.

Lemma load_console t e p : console (load t e p) = console p.
Proof. unfold load. destruct (inside t e); reflexivity. Qed.

Lemma load_redirect t e p : redirect (load t e p) = redirect p.
Proof. unfold load. destruct (inside t e); reflexivity. Qed.

Lemma load_files t e p : files (load t e p) = files p.
Proof. unfold load. destruct (inside t e); reflexivity. Qed.

Lemma load_texts t e p : texts (load t e p) = texts p.
Proof. unfold load. destruct (inside t e); reflexivity. Qed.

Lemma load_fAddress t e p : fAddress (load t e p) = fAddress p.
Proof. unfold load. destruct (inside t e); reflexivity. Qed.

Lemma load_inside t e p :
  0 <= e < fEntries t ->
  fReadEntry (load t e p) = Some e /\
  sync (load t e p) = match fAddress p with
                      | Some b => Some (fObjects b e)
                      | None => sync p
                      end.
Proof.
  intros [H0 H1]. unfold load, inside.
  apply Z.leb_le in H0. apply Z.ltb_lt in H1. rewrite H0, H1. cbn. auto.
Qed.

Lemma load_outside t e p :
  ~ (0 <= e < fEntries t) ->
  fReadEntry (load t e p) = fReadEntry p /\ sync (load t e p) = sync p.
Proof.
  intros H. unfold load, inside.
  destruct (Z.leb_spec 0 e), (Z.ltb_spec e (fEntries t)); cbn; auto; lia.
Qed.

Lemma write_console o p :
  console (write o p) =
  match redirect p with
  | None => (console p ++ [o])%list
  | Some _ => console p
  end.
Proof. unfold write. destruct (redirect p) eqn:E; cbn; congruence. Qed.

Lemma write_texts o p name :
  texts (write o p) name =
  match redirect p with
  | Some target =>
      if String.eqb name target then (texts p name ++ [o])%list
      else texts p name
  | None => texts p name
  end.
Proof. unfold write. destruct (redirect p) eqn:E; cbn; congruence. Qed.

Lemma write_redirect o p : redirect (write o p) = redirect p.
Proof. unfold write. destruct (redirect p) eqn:E; cbn; congruence. Qed.

Lemma write_files o p : files (write o p) = files p.
Proof. unfold write. destruct (redirect p) eqn:E; cbn; congruence. Qed.

Lemma write_requested o p : requested (write o p) = requested p.
Proof. unfold write. destruct (redirect p) eqn:E; cbn; congruence. Qed.

Lemma write_fReadEntry o p : fReadEntry (write o p) = fReadEntry p.
Proof. unfold write. destruct (redirect p) eqn:E; cbn; congruence. Qed.

Lemma write_fAddress o p : fAddress (write o p) = fAddress p.
Proof. unfold write. destruct (redirect p) eqn:E; cbn; congruence. Qed.

Lemma write_sync o p : sync (write o p) = sync p.
Proof. unfold write. destruct (redirect p) eqn:E; cbn; congruence. Qed.

Lemma buffer_write lf o p : buffer lf (write o p) = buffer lf p.
Proof. unfold buffer. rewrite write_fReadEntry. reflexivity. Qed.

Lemma write_present o p : present (write o p) = present p.
Proof. unfold write. destruct (redirect p) eqn:E; cbn; congruence. Qed.

Lemma load_present t e p : present (load t e p) = present p.
Proof. unfold load. destruct (inside t e); reflexivity. Qed.

Lemma complain_console o p : console (complain o p) = console p.
Proof. unfold complain. destruct (redirect p) eqn:E; cbn; congruence. Qed.

Lemma complain_texts o p name :
  texts (complain o p) name =
  match redirect p with
  | Some target =>
      if String.eqb name target then (texts p name ++ [o])%list
      else texts p name
  | None => texts p name
  end.
Proof. unfold complain. destruct (redirect p) eqn:E; cbn; congruence. Qed.

Lemma complain_redirect o p : redirect (complain o p) = redirect p.
Proof. unfold complain. destruct (redirect p) eqn:E; cbn; congruence. Qed.

Lemma complain_files o p : files (complain o p) = files p.
Proof. unfold complain. destruct (redirect p) eqn:E; cbn; congruence. Qed.

Lemma complain_present o p : present (complain o p) = present p.
Proof. unfold complain. destruct (redirect p) eqn:E; cbn; congruence. Qed.

Lemma complain_requested o p : requested (complain o p) = requested p.
Proof. unfold complain. destruct (redirect p) eqn:E; cbn; congruence. Qed.

Lemma complain_sync o p : sync (complain o p) = sync p.
Proof. unfold complain. destruct (redirect p) eqn:E; cbn; congruence. Qed.

Lemma reopen_redirect name p : redirect (reopen name p) = Some name.
Proof. reflexivity. Qed.

Lemma reopen_texts name p : texts (reopen name p) = texts p.
Proof. reflexivity. Qed.

Lemma reopen_console name p : console (reopen name p) = console p.
Proof. reflexivity. Qed.

Lemma reopen_files name p : files (reopen name p) = files p.
Proof. reflexivity. Qed.

Lemma reopen_requested name p : requested (reopen name p) = requested p.
Proof. reflexivity. Qed.

Lemma reopen_present name p n :
  present (reopen name p) n = if String.eqb n name then true else present p n.
Proof. reflexivity. Qed.

Create Rewrite HintDb proc.
#[global] Hint Rewrite load_requested load_console load_redirect load_files
  load_texts load_fAddress write_console write_texts write_redirect
  write_files write_requested write_fReadEntry write_fAddress write_sync
  buffer_write write_present load_present complain_console complain_texts
  complain_redirect complain_files complain_present complain_requested
  complain_sync reopen_redirect reopen_texts reopen_console reopen_files
  reopen_requested reopen_present : proc.

Arguments load : simpl never.
Arguments write : simpl never.
Arguments complain : simpl never.
Arguments reopen : simpl never.
Arguments buffer : simpl never.

(** ** The macros, path by path *)

Ltac unfold_calls :=
  unfold gSystem_IgnoreSignals, gSystem_Load, gSystem_RedirectOutput,
    FROG_location, TFile_Open, TFile_Get, TTree_GetEntries, TTree_GetLeaf,
    TTree_GetEntry, TLeaf_GetValueLong64, TTree_SetBranchAddress,
    SyncObject_EventNumber, TTree_SetScanField, TTree_Scan, cout;
  unfold bind, ret, gets, modify, deref.

Section Paths.
Variables (p : Proc) (file : string).

(** The file cannot be opened: every macro dereferences the null file
    pointer. *)
Lemma GetEntries_unopened :
  files p (frog p file) = None ->
  GetEntries file p =
  Segv (complain Diagnostic (write (Line ("Getting events for " ++ file)) p)).
Proof.
  intros Hf. unfold GetEntries. unfold_calls. cbn. rewrite Hf. reflexivity.
Qed.

Lemma GetEntriesAndEventNr_unopened :
  files p (frog p file) = None ->
  GetEntriesAndEventNr file p =
  Segv (complain Diagnostic (write (Line ("Getting events for " ++ file)) p)).
Proof.
  intros Hf. unfold GetEntriesAndEventNr. unfold_calls. cbn. rewrite Hf.
  reflexivity.
Qed.

Lemma GetNumbers_unopened :
  files p (frog p file) = None ->
  GetNumbers file p = Segv (complain Diagnostic (reopen "numbers.txt" p)).
Proof.
  intros Hf. unfold GetNumbers. unfold_calls. cbn. rewrite Hf. reflexivity.
Qed.

Variable fd : TFileData.
Hypothesis Hopen : files p (frog p file) = Some fd.

(** No tree "T". *)
Lemma GetEntries_no_tree :
  fKeys fd "T" = None ->
  GetEntries file p =
  Segv (complain Diagnostic
          (write (Line ("Number of Entries: " ++ show (-1)))
             (write (Line ("Getting events for " ++ file)) p))).
Proof.
  intros HT. unfold GetEntries. unfold_calls. cbn. rewrite Hopen. cbn.
  rewrite HT. reflexivity.
Qed.

Lemma GetEntriesAndEventNr_no_tree :
  fKeys fd "T" = None ->
  GetEntriesAndEventNr file p =
  Done tt
    (write (Line ("Last event number: " ++ show (-1)))
       (write (Line ("First event number: " ++ show (-1)))
          (write (Line "Number of Entries: -2")
             (write (Line ("Getting events for " ++ file)) p)))).
Proof.
  intros HT. unfold GetEntriesAndEventNr. unfold_calls. cbn.
  rewrite Hopen. cbn. rewrite HT. reflexivity.
Qed.

Lemma GetNumbers_no_tree :
  fKeys fd "T" = None ->
  GetNumbers file p =
  Done tt
    (write (Line ("dummyLast " ++ show (-1)))
       (write (Line ("dummyFirst " ++ show (-1)))
          (write (Line ("dummyEntries " ++ show (-1)))
             (write (Line " ***** T is null, dummy values")
                (reopen "numbers.txt" p))))).
Proof.
  intros HT. unfold GetNumbers. unfold_calls. cbn. rewrite Hopen. cbn.
  rewrite HT. reflexivity.
Qed.

Variable t : TTreeData.
Hypothesis Htree : fKeys fd "T" = Some t.

Lemma GetEntries_no_leaf :
  fLeaves t "eventnumber" = None ->
  GetEntries file p =
  Done tt
    (write (Line ("Last event number: " ++ show (-1)))
       (write (Line ("First event number: " ++ show (-1)))
          (counted file (wrap32 (fEntries t)) p))).
Proof.
  intros Hl. unfold GetEntries. unfold_calls. cbn. rewrite Hopen. cbn.
  rewrite Htree. cbn. rewrite Hl. reflexivity.
Qed.

Lemma GetEntries_leaf lf :
  fLeaves t "eventnumber" = Some lf ->
  let p1 := load t 0 (counted file (wrap32 (fEntries t)) p) in
  let p2 := load t (sub32 (wrap32 (fEntries t)) 1) p1 in
  GetEntries file p =
  Done tt
    (write (Line ("Last event number: " ++ show (buffer lf p2)))
       (write (Line ("First event number: " ++ show (buffer lf p1))) p2)).
Proof.
  intros Hl. unfold GetEntries. unfold_calls. cbn. rewrite Hopen. cbn.
  rewrite Htree. cbn. rewrite Hl. reflexivity.
Qed.

Lemma GetNumbers_tree :
  GetNumbers file p =
  Done tt
    (write (ScanTable "eventnumber" "" "" 1 (sub32 (wrap32 (fEntries t)) 1))
       (write (ScanTable "eventnumber" "" "" 1 0)
          (write (Line ("nEntries " ++ show (wrap32 (fEntries t))))
             (reopen "numbers.txt" p)))).
Proof.
  unfold GetNumbers. unfold_calls. cbn. rewrite Hopen. cbn.
  rewrite Htree. reflexivity.
Qed.
End Paths.

Lemma GetEntriesAndEventNr_tree p file fd t :
  files p (frog p file) = Some fd ->
  fKeys fd "T" = Some t ->
  let p0 := counted file (fEntries t) p in
  GetEntriesAndEventNr file p =
  Done tt
    (write (Line ("Last event number: "
                  ++ show (event (sync (at_second_test t p0)))))
       (write (Line ("First event number: "
                     ++ show (event (sync (at_first_test t p0)))))
          (at_second_test t p0))).
Proof.
  intros Hopen Htree. unfold GetEntriesAndEventNr, at_second_test, at_first_test, counted.
  unfold_calls. cbn. rewrite Hopen. cbn. rewrite Htree. cbn.
  destruct (fBranches t "DST#Sync") as [b|]; cbn;
    match goal with
    | |- context [sync (load t 0 ?q)] => set (p1 := load t 0 q)
    end;
    destruct (sync p1); cbn;
    set (p2 := load t (sub64 (fEntries t) 1) p1);
    destruct (sync p2); reflexivity.
Qed.

(** ** The pointer [sync] in GetEntriesAndEventNr.C *)

(** The process once [sync] is reset and the address is set. *)
Lemma at_first_test_load t p :
  at_first_test t p =
  load t 0
    match fBranches t "DST#Sync" with
    | Some b =>
        set_sync (Some (fOnBind b)) (set_fAddress (Some b) (set_sync None p))
    | None => set_sync None p
    end.
Proof.
  unfold at_first_test. unfold_calls. cbn.
  destruct (fBranches t "DST#Sync"); reflexivity.
Qed.

Lemma at_second_test_load t p :
  at_second_test t p = load t (sub64 (fEntries t) 1) (at_first_test t p).
Proof. reflexivity. Qed.

Lemma at_first_test_fAddress t p :
  fAddress (at_first_test t p) =
  match fBranches t "DST#Sync" with Some b => Some b | None => fAddress p end.
Proof.
  rewrite at_first_test_load, load_fAddress.
  destruct (fBranches t "DST#Sync"); reflexivity.
Qed.

(** Nothing reaches the pointer while no branch is bound to it. *)
Lemma load_sync_unbound t e p :
  fAddress p = None -> sync (load t e p) = sync p.
Proof.
  intros Ha.
  destruct (Z_le_gt_dec 0 e) as [H0|H0];
    [destruct (Z_lt_ge_dec e (fEntries t)) as [H1|H1]|].
  - destruct (load_inside t e p) as [_ ->]; [lia|]. rewrite Ha. reflexivity.
  - destruct (load_outside t e p) as [_ ->]; [lia|]. reflexivity.
  - destruct (load_outside t e p) as [_ ->]; [lia|]. reflexivity.
Qed.

(** Without the branch the pointer is null at both tests. *)
Lemma sync_missing_branch t p :
  fBranches t "DST#Sync" = None -> fAddress p = None ->
  sync (at_first_test t p) = None /\ sync (at_second_test t p) = None.
Proof.
  intros Hb Ha.
  assert (H1 : sync (at_first_test t p) = None).
  { rewrite at_first_test_load, Hb. rewrite load_sync_unbound; auto. }
  split; [exact H1|].
  rewrite at_second_test_load, load_sync_unbound; auto.
  rewrite at_first_test_fAddress, Hb. exact Ha.
Qed.

(** With the branch and at least one entry the pointer holds entry 0 at the
    first test and the last entry at the second. *)
Lemma sync_populated t p b :
  fBranches t "DST#Sync" = Some b ->
  0 < fEntries t < 9223372036854775808 ->
  sync (at_first_test t p) = Some (fObjects b 0) /\
  sync (at_second_test t p) = Some (fObjects b (fEntries t - 1)).
Proof.
  intros Hb Hn. split.
  - rewrite at_first_test_load, Hb.
    destruct (load_inside t 0 (set_sync (Some (fOnBind b))
       (set_fAddress (Some b) (set_sync None p)))) as [_ ->]; [lia|].
    reflexivity.
  - rewrite at_second_test_load. unfold sub64.
    rewrite wrap64_small by lia.
    destruct (load_inside t (fEntries t - 1) (at_first_test t p)) as [_ ->];
      [lia|].
    rewrite at_first_test_fAddress, Hb. reflexivity.
Qed.

(** Without entries the pointer is at both tests what setting the address
    made of it. *)
Lemma sync_empty t p :
  fEntries t = 0 ->
  let bound := match fBranches t "DST#Sync" with
               | Some b => Some (fOnBind b)
               | None => None
               end in
  sync (at_first_test t p) = bound /\ sync (at_second_test t p) = bound.
Proof.
  intros Hn bound.
  assert (H1 : sync (at_first_test t p) = bound).
  { rewrite at_first_test_load.
    match goal with
    | |- sync (load t 0 ?q) = _ =>
        destruct (load_outside t 0 q) as [_ ->]; [lia|]
    end.
    subst bound. destruct (fBranches t "DST#Sync") as [b|]; reflexivity. }
  split; [exact H1|].
  rewrite at_second_test_load.
  destruct (load_outside t (sub64 (fEntries t) 1) (at_first_test t p))
    as [_ ->]; [|exact H1].
  rewrite Hn. vm_compute. intros [H _]. apply H. reflexivity.
Qed.

(** A pointer that is set at the first test is set at the second, and one
    that is null at the first is null at the second. *)
Lemma sync_tests_agree t p :
  (sync (at_first_test t p) = None -> sync (at_second_test t p) = None) /\
  (forall o, sync (at_first_test t p) = Some o ->
             exists o', sync (at_second_test t p) = Some o').
Proof.
  rewrite at_second_test_load.
  set (e := sub64 (fEntries t) 1).
  destruct (Z_le_gt_dec (fEntries t) 0) as [Hn|Hn].
  - (* no entry can be loaded *)
    destruct (load_outside t e (at_first_test t p)) as [_ ->]; [lia|].
    split; [auto|]. intros o Ho. exists o. exact Ho.
  - (* entry 0 was loaded *)
    rewrite at_first_test_load.
    match goal with
    | |- context [load t 0 ?q] =>
        set (q0 := q); destruct (load_inside t 0 q0) as [_ H1]; [lia|]
    end.
    assert (Ha : fAddress (load t 0 q0) = fAddress q0) by apply load_fAddress.
    destruct (Z_lt_ge_dec e (fEntries t)) as [He|He];
      [destruct (Z_le_gt_dec 0 e) as [He0|He0]|].
    + destruct (load_inside t e (load t 0 q0)) as [_ ->]; [lia|].
      rewrite Ha, H1. split.
      * destruct (fAddress q0); [discriminate|auto].
      * intros o Ho. destruct (fAddress q0); eauto.
    + destruct (load_outside t e (load t 0 q0)) as [_ ->]; [lia|].
      split; [auto|]. intros o Ho. eauto.
    + destruct (load_outside t e (load t 0 q0)) as [_ ->]; [lia|].
      split; [auto|]. intros o Ho. eauto.
Qed.

Lemma at_second_test_fields t p :
  console (at_second_test t p) = console p /\
  redirect (at_second_test t p) = redirect p /\
  files (at_second_test t p) = files p /\
  texts (at_second_test t p) = texts p /\
  requested (at_second_test t p)
  = (requested p ++ [0; sub64 (fEntries t) 1])%list.
Proof.
  rewrite at_second_test_load, at_first_test_load.
  autorewrite with proc. rewrite <- app_assoc.
  destruct (fBranches t "DST#Sync"); cbn; auto.
Qed.

(** ** The leaf buffer in GetEntries.C *)

Lemma buffer_inside lf t e p :
  0 <= e < fEntries t -> buffer lf (load t e p) = fColumn lf e.
Proof.
  intros H. unfold buffer.
  destruct (load_inside t e p H) as [-> _]. reflexivity.
Qed.

Lemma buffer_outside lf t e p :
  ~ (0 <= e < fEntries t) -> buffer lf (load t e p) = buffer lf p.
Proof.
  intros H. unfold buffer.
  destruct (load_outside t e p H) as [-> _]. reflexivity.
Qed.

Lemma buffer_counted lf file n loc fs txt :
  buffer lf (counted file n (boot loc fs txt)) = fValue lf.
Proof. unfold counted. autorewrite with proc. reflexivity. Qed.

Lemma console_counted file n loc fs txt :
  console (counted file n (boot loc fs txt))
  = [Line ("Getting events for " ++ file);
     Line ("Number of Entries: " ++ show n)].
Proof. unfold counted. autorewrite with proc. reflexivity. Qed.

Lemma redirect_counted file n p : redirect (counted file n p) = redirect p.
Proof. unfold counted. autorewrite with proc. reflexivity. Qed.

Lemma requested_counted file n p : requested (counted file n p) = requested p.
Proof. unfold counted. autorewrite with proc. reflexivity. Qed.

Lemma fAddress_counted file n p : fAddress (counted file n p) = fAddress p.
Proof. unfold counted. autorewrite with proc. reflexivity. Qed.

Lemma files_counted file n p : files (counted file n p) = files p.
Proof. unfold counted. autorewrite with proc. reflexivity. Qed.

#[global] Hint Rewrite console_counted redirect_counted requested_counted
  fAddress_counted files_counted : proc.

(** ** C1 *)

(** C1, as amended.  A file holds the tree "T" with N > 0 entries.  With the
    leaf "eventnumber" and N below 2^31, GetEntries.C finishes and prints the
    count N, the value of the leaf at entry 0 and its value at entry N-1.
    With the branch "DST#Sync" and N a [Long64_t], GetEntriesAndEventNr.C
    finishes and prints N, the event number of the object of entry 0 and
    that of entry N-1. *)
Theorem C1_populated_table_report loc fs txt file fd t :
  fs (loc file) = Some fd ->
  fKeys fd "T" = Some t ->
  0 < fEntries t ->
  (forall lf,
     fLeaves t "eventnumber" = Some lf ->
     fEntries t < 2147483648 ->
     faulted (GetEntries file (boot loc fs txt)) = false /\
     console (final (GetEntries file (boot loc fs txt)))
     = report file (fEntries t) (fColumn lf 0) (fColumn lf (fEntries t - 1)))
  /\
  (forall b,
     fBranches t "DST#Sync" = Some b ->
     fEntries t < 9223372036854775808 ->
     faulted (GetEntriesAndEventNr file (boot loc fs txt)) = false /\
     console (final (GetEntriesAndEventNr file (boot loc fs txt)))
     = report file (fEntries t) (EventNumber (fObjects b 0))
              (EventNumber (fObjects b (fEntries t - 1)))).
Proof.
  intros Hopen Htree Hpos. split.
  - intros lf Hl Hint.
    rewrite (GetEntries_leaf (boot loc fs txt) file fd Hopen t Htree lf Hl).
    cbn [faulted final]. split; [reflexivity|].
    rewrite (wrap32_small (fEntries t)) by lia.
    unfold sub32. rewrite (wrap32_small (fEntries t - 1)) by lia.
    autorewrite with proc. cbn [redirect boot].
    rewrite !buffer_inside by lia. reflexivity.
  - intros b Hb Hlong.
    rewrite (GetEntriesAndEventNr_tree (boot loc fs txt) file fd t Hopen Htree).
    cbn [faulted final]. split; [reflexivity|].
    set (p0 := counted file (fEntries t) (boot loc fs txt)).
    destruct (sync_populated t p0 b Hb ltac:(lia)) as [-> ->].
    destruct (at_second_test_fields t p0) as (Hc & Hr & _).
    autorewrite with proc. rewrite Hr, Hc. subst p0.
    autorewrite with proc. reflexivity.
Qed.

(** The example of the specification: three entries numbered 101, 102, 103
    give the report 3, 101, 103 from both console macros. *)
Lemma C1_populated_table_report_witness :
  console (final (GetEntries "run.root" (boot id (disk file3) no_text)))
  = report "run.root" 3 101 103 /\
  console (final (GetEntriesAndEventNr "run.root" (boot id (disk file3) no_text)))
  = report "run.root" 3 101 103.
Proof.
  destruct (C1_populated_table_report id (disk file3) no_text "run.root"
              file3 tree3 eq_refl eq_refl eq_refl) as [HA HB].
  split.
  - apply (HA leaf3 eq_refl eq_refl).
  - apply (HB branch3 eq_refl eq_refl).
Defined.

(** C1 as stated fails in GetEntries.C: a tree of 2^31 entries with the leaf
    is reported with the count -2147483648. *)
Lemma C1_count_counterexample :
  fKeys file_big "T" = Some tree_big /\
  0 < fEntries tree_big /\
  fLeaves tree_big "eventnumber" = Some (mkLeaf 0 (fun i => i)) /\
  console (final (GetEntries "run.root" (boot id (disk file_big) no_text)))
  <> report "run.root" (fEntries tree_big) 0 (fEntries tree_big - 1) /\
  console (final (GetEntries "run.root" (boot id (disk file_big) no_text)))
  = report "run.root" (-2147483648) 0 2147483647.
Proof.
  repeat split; try reflexivity.
  intros H. vm_compute in H. discriminate H.
Qed.

(** ** C2 *)

(** C2.  A file opens and holds no tree "T".  GetEntriesAndEventNr.C
    finishes with the report -2, -1, -1.  GetEntries.C prints the count -1
    and then calls [GetLeaf] on the null tree pointer: the run faults with
    two lines printed and neither event number. *)
Theorem C2_missing_table loc fs txt file fd :
  fs (loc file) = Some fd ->
  fKeys fd "T" = None ->
  (faulted (GetEntriesAndEventNr file (boot loc fs txt)) = false /\
   console (final (GetEntriesAndEventNr file (boot loc fs txt)))
   = report file (-2) (-1) (-1))
  /\
  (faulted (GetEntries file (boot loc fs txt)) = true /\
   console (final (GetEntries file (boot loc fs txt)))
   = [Line ("Getting events for " ++ file); Line "Number of Entries: -1"]).
Proof.
  intros Hopen Htree. split.
  - rewrite (GetEntriesAndEventNr_no_tree (boot loc fs txt) file fd Hopen Htree).
    cbn [faulted final]. split; [reflexivity|].
    autorewrite with proc. reflexivity.
  - rewrite (GetEntries_no_tree (boot loc fs txt) file fd Hopen Htree).
    cbn [faulted final]. split; [reflexivity|].
    autorewrite with proc. reflexivity.
Qed.

Lemma C2_missing_table_witness :
  console (final (GetEntriesAndEventNr "run.root"
                    (boot id (disk file_noT) no_text)))
  = report "run.root" (-2) (-1) (-1) /\
  faulted (GetEntries "run.root" (boot id (disk file_noT) no_text)) = true.
Proof.
  destruct (C2_missing_table id (disk file_noT) no_text "run.root" file_noT
              eq_refl eq_refl) as [[_ HB] [HA _]].
  split; [exact HB | exact HA].
Defined.

(** ** What GetNumbers.C leaves in the text files *)

Lemma GetNumbers_tree_text loc fs txt file fd t :
  fs (loc file) = Some fd ->
  fKeys fd "T" = Some t ->
  faulted (GetNumbers file (boot loc fs txt)) = false /\
  console (final (GetNumbers file (boot loc fs txt))) = [] /\
  forall name,
    texts (final (GetNumbers file (boot loc fs txt))) name
    = if String.eqb name "numbers.txt"
      then (txt name ++ dump (wrap32 (fEntries t))
                             (sub32 (wrap32 (fEntries t)) 1))%list
      else txt name.
Proof.
  intros Hopen Htree.
  rewrite (GetNumbers_tree (boot loc fs txt) file fd Hopen t Htree).
  cbn [faulted final]. split; [reflexivity|]. split.
  - autorewrite with proc. reflexivity.
  - intros name. autorewrite with proc. cbn [redirect set_redirect texts boot].
    destruct (String.eqb name "numbers.txt"); [|reflexivity].
    unfold dump. rewrite <- !app_assoc. reflexivity.
Qed.

Lemma GetNumbers_no_tree_text loc fs txt file fd :
  fs (loc file) = Some fd ->
  fKeys fd "T" = None ->
  faulted (GetNumbers file (boot loc fs txt)) = false /\
  console (final (GetNumbers file (boot loc fs txt))) = [] /\
  forall name,
    texts (final (GetNumbers file (boot loc fs txt))) name
    = if String.eqb name "numbers.txt" then (txt name ++ dummies)%list
      else txt name.
Proof.
  intros Hopen Htree.
  rewrite (GetNumbers_no_tree (boot loc fs txt) file fd Hopen Htree).
  cbn [faulted final]. split; [reflexivity|]. split.
  - autorewrite with proc. reflexivity.
  - intros name. autorewrite with proc. cbn [redirect set_redirect texts boot].
    destruct (String.eqb name "numbers.txt"); [|reflexivity].
    unfold dummies. rewrite <- !app_assoc. reflexivity.
Qed.

(** ** C3 *)

Lemma nothing_held t e : fEntries t = 0 -> ~ (0 <= e < fEntries t).
Proof. lia. Qed.

Lemma at_second_test_empty t p :
  fEntries t = 0 -> fReadEntry (at_second_test t p) = fReadEntry p.
Proof.
  intros Hn. rewrite at_second_test_load, at_first_test_load.
  match goal with
  | |- fReadEntry (load t ?e (load t 0 ?q)) = _ =>
      destruct (load_outside t e (load t 0 q) (nothing_held t e Hn)) as [-> _];
      destruct (load_outside t 0 q (nothing_held t 0 Hn)) as [-> _]
  end.
  destruct (fBranches t "DST#Sync"); reflexivity.
Qed.

(** C3.  A file holds the tree "T" with no entries.  Every macro reports
    the count 0 and finishes.  GetEntries.C without the leaf asks
    for no entry and prints -1, -1; with the leaf it asks for the entries 0
    and -1, which load nothing, and prints twice what the buffer of the leaf
    held before.  GetEntriesAndEventNr.C asks for the entries 0 and -1,
    which load nothing, and prints twice the event number of the object the
    pointer got when the address was set, or -1, -1 when it got none.
    GetNumbers.C writes the count 0 and scans from the rows 0 and -1. *)
Theorem C3_empty_table loc fs txt file fd t :
  fs (loc file) = Some fd ->
  fKeys fd "T" = Some t ->
  fEntries t = 0 ->
  (fLeaves t "eventnumber" = None ->
     faulted (GetEntries file (boot loc fs txt)) = false /\
     requested (final (GetEntries file (boot loc fs txt))) = [] /\
     console (final (GetEntries file (boot loc fs txt)))
     = report file 0 (-1) (-1))
  /\
  (forall lf,
     fLeaves t "eventnumber" = Some lf ->
     faulted (GetEntries file (boot loc fs txt)) = false /\
     requested (final (GetEntries file (boot loc fs txt))) = [0; -1] /\
     fReadEntry (final (GetEntries file (boot loc fs txt))) = None /\
     console (final (GetEntries file (boot loc fs txt)))
     = report file 0 (fValue lf) (fValue lf))
  /\
  (faulted (GetEntriesAndEventNr file (boot loc fs txt)) = false /\
   requested (final (GetEntriesAndEventNr file (boot loc fs txt))) = [0; -1] /\
   fReadEntry (final (GetEntriesAndEventNr file (boot loc fs txt))) = None /\
   console (final (GetEntriesAndEventNr file (boot loc fs txt)))
   = let bound := match fBranches t "DST#Sync" with
                  | Some b => Some (fOnBind b)
                  | None => None
                  end in
     report file 0 (event bound) (event bound))
  /\
  (faulted (GetNumbers file (boot loc fs txt)) = false /\
   texts (final (GetNumbers file (boot loc fs txt))) "numbers.txt"
   = (txt "numbers.txt" ++ dump 0 (-1))%list).
Proof.
  intros Hopen Htree Hn. split; [|split; [|split]].
  - intros Hl.
    rewrite (GetEntries_no_leaf (boot loc fs txt) file fd Hopen t Htree Hl).
    cbn [faulted final]. rewrite Hn. autorewrite with proc.
    repeat split; reflexivity.
  - intros lf Hl.
    rewrite (GetEntries_leaf (boot loc fs txt) file fd Hopen t Htree lf Hl).
    cbn [faulted final]. rewrite Hn.
    change (wrap32 0) with 0. change (sub32 0 1) with (-1).
    autorewrite with proc. cbn [redirect boot requested].
    rewrite !buffer_outside by (apply nothing_held, Hn).
    rewrite buffer_counted.
    repeat split; try reflexivity.
    destruct (load_outside t (-1) (load t 0 (counted file 0 (boot loc fs txt)))
                (nothing_held t (-1) Hn)) as [-> _].
    destruct (load_outside t 0 (counted file 0 (boot loc fs txt))
                (nothing_held t 0 Hn)) as [-> _].
    unfold counted. autorewrite with proc. reflexivity.
  - rewrite (GetEntriesAndEventNr_tree (boot loc fs txt) file fd t Hopen Htree).
    cbn [faulted final].
    set (p0 := counted file (fEntries t) (boot loc fs txt)).
    destruct (sync_empty t p0 Hn) as [-> ->].
    destruct (at_second_test_fields t p0) as (Hc & Hr & _ & _ & Hq).
    autorewrite with proc.
    rewrite Hr, Hc, Hq, (at_second_test_empty t p0 Hn). subst p0.
    unfold counted at 3. autorewrite with proc. rewrite Hn.
    repeat split; reflexivity.
  - destruct (GetNumbers_tree_text loc fs txt file fd t Hopen Htree)
      as (Hf & _ & Ht).
    split; [exact Hf|]. rewrite (Ht "numbers.txt"), Hn. reflexivity.
Qed.

Lemma C3_empty_table_witness :
  requested (final (GetEntries "run.root" (boot id (disk file0) no_text)))
  = [0; -1] /\
  console (final (GetEntries "run.root" (boot id (disk file0) no_text)))
  = report "run.root" 0 0 0 /\
  console (final (GetEntriesAndEventNr "run.root"
                    (boot id (disk file0) no_text)))
  = report "run.root" 0 0 0 /\
  texts (final (GetNumbers "run.root" (boot id (disk file0) no_text)))
        "numbers.txt"
  = dump 0 (-1).
Proof.
  destruct (C3_empty_table id (disk file0) no_text "run.root" file0 tree0
              eq_refl eq_refl eq_refl) as (_ & HA & HB & HN).
  destruct (HA leaf3 eq_refl) as (_ & Hq & _ & Hc).
  destruct HB as (_ & _ & _ & HB). destruct HN as [_ HN].
  repeat split; assumption.
Defined.

(** On an empty tree with the leaf, GetEntries.C does ask for the entry -1,
    and what it prints is not the report 0, -1, -1. *)
Lemma GetEntries_empty_asks_minus_one :
  fKeys file0 "T" = Some tree0 /\
  fEntries tree0 = 0 /\
  ~ (~ In (-1) (requested (final (GetEntries "run.root"
                                    (boot id (disk file0) no_text)))) /\
     console (final (GetEntries "run.root" (boot id (disk file0) no_text)))
     = report "run.root" 0 (-1) (-1)).
Proof.
  repeat split.
  intros [H _]. apply H. vm_compute. right. left. reflexivity.
Qed.

(** ** C4 *)

Lemma at_first_test_after_binding t p :
  sync_after_binding t p = None ->
  fBranches t "DST#Sync" = None.
Proof.
  unfold sync_after_binding. unfold_calls. cbn.
  destruct (fBranches t "DST#Sync"); [discriminate|reflexivity].
Qed.

Lemma sync_after_binding_missing t p :
  fBranches t "DST#Sync" = None -> sync_after_binding t p = None.
Proof.
  intros Hb. unfold sync_after_binding. unfold_calls. cbn.
  rewrite Hb. reflexivity.
Qed.

(** C4, as amended.  A file holds the tree "T" with N entries.  Without the
    leaf "eventnumber" and with N below 2^31, GetEntries.C finishes with the
    report N, -1, -1.  When the pointer [sync] of GetEntriesAndEventNr.C is
    null once the address of the branch is set, that macro finishes with the
    report N, -1, -1; the pointer is null there whenever the tree has no
    branch "DST#Sync". *)
Theorem C4_identifier_unavailable loc fs txt file fd t :
  fs (loc file) = Some fd ->
  fKeys fd "T" = Some t ->
  (fLeaves t "eventnumber" = None ->
   0 <= fEntries t < 2147483648 ->
   faulted (GetEntries file (boot loc fs txt)) = false /\
   console (final (GetEntries file (boot loc fs txt)))
   = report file (fEntries t) (-1) (-1))
  /\
  (sync_after_binding t (counted file (fEntries t) (boot loc fs txt)) = None ->
   faulted (GetEntriesAndEventNr file (boot loc fs txt)) = false /\
   console (final (GetEntriesAndEventNr file (boot loc fs txt)))
   = report file (fEntries t) (-1) (-1))
  /\
  (fBranches t "DST#Sync" = None ->
   sync_after_binding t (counted file (fEntries t) (boot loc fs txt)) = None).
Proof.
  intros Hopen Htree. split; [|split].
  - intros Hl Hint.
    rewrite (GetEntries_no_leaf (boot loc fs txt) file fd Hopen t Htree Hl).
    cbn [faulted final]. split; [reflexivity|].
    rewrite wrap32_small by lia. autorewrite with proc. reflexivity.
  - intros Hnull. apply at_first_test_after_binding in Hnull.
    rewrite (GetEntriesAndEventNr_tree (boot loc fs txt) file fd t Hopen Htree).
    cbn [faulted final]. split; [reflexivity|].
    set (p0 := counted file (fEntries t) (boot loc fs txt)).
    destruct (sync_missing_branch t p0 Hnull) as [-> ->].
    { subst p0. autorewrite with proc. reflexivity. }
    destruct (at_second_test_fields t p0) as (Hc & Hr & _).
    autorewrite with proc. rewrite Hr, Hc. subst p0.
    autorewrite with proc. reflexivity.
  - apply sync_after_binding_missing.
Qed.

Lemma C4_identifier_unavailable_witness :
  console (final (GetEntries "run.root" (boot id (disk file_bare) no_text)))
  = report "run.root" 3 (-1) (-1) /\
  console (final (GetEntriesAndEventNr "run.root"
                    (boot id (disk file_bare) no_text)))
  = report "run.root" 3 (-1) (-1).
Proof.
  destruct (C4_identifier_unavailable id (disk file_bare) no_text "run.root"
              file_bare tree_bare eq_refl eq_refl) as (HA & HB & Hnull).
  split.
  - apply (HA eq_refl). split; [discriminate | reflexivity].
  - apply HB, Hnull. reflexivity.
Defined.

(** C4 as stated fails in GetEntries.C: a tree of 2^31 entries without the
    leaf is reported with the count -2147483648. *)
Lemma C4_count_counterexample :
  fKeys file_big_bare "T" = Some tree_big_bare /\
  fLeaves tree_big_bare "eventnumber" = None /\
  console (final (GetEntries "run.root" (boot id (disk file_big_bare) no_text)))
  <> report "run.root" (fEntries tree_big_bare) (-1) (-1) /\
  console (final (GetEntries "run.root" (boot id (disk file_big_bare) no_text)))
  = report "run.root" (-2147483648) (-1) (-1).
Proof.
  repeat split; try reflexivity.
  intros H. vm_compute in H. discriminate H.
Qed.

(** ** C5 *)

Lemma GetEntries_tree_report loc fs txt file fd t :
  fs (loc file) = Some fd ->
  fKeys fd "T" = Some t ->
  faulted (GetEntries file (boot loc fs txt)) = false /\
  exists first last,
    console (final (GetEntries file (boot loc fs txt)))
    = report file (wrap32 (fEntries t)) first last.
Proof.
  intros Hopen Htree.
  destruct (fLeaves t "eventnumber") as [lf|] eqn:Hl.
  - rewrite (GetEntries_leaf (boot loc fs txt) file fd Hopen t Htree lf Hl).
    cbn [faulted final]. split; [reflexivity|].
    eexists. eexists. autorewrite with proc. cbn [redirect boot].
    reflexivity.
  - rewrite (GetEntries_no_leaf (boot loc fs txt) file fd Hopen t Htree Hl).
    cbn [faulted final]. split; [reflexivity|].
    exists (-1), (-1). autorewrite with proc. reflexivity.
Qed.

Lemma GetEntriesAndEventNr_report loc fs txt file fd :
  fs (loc file) = Some fd ->
  faulted (GetEntriesAndEventNr file (boot loc fs txt)) = false /\
  exists n first last,
    console (final (GetEntriesAndEventNr file (boot loc fs txt)))
    = report file n first last.
Proof.
  intros Hopen.
  destruct (fKeys fd "T") as [t|] eqn:Htree.
  - rewrite (GetEntriesAndEventNr_tree (boot loc fs txt) file fd t Hopen Htree).
    cbn [faulted final]. split; [reflexivity|].
    set (p0 := counted file (fEntries t) (boot loc fs txt)).
    exists (fEntries t), (event (sync (at_first_test t p0))),
      (event (sync (at_second_test t p0))).
    destruct (at_second_test_fields t p0) as (Hc & Hr & _).
    autorewrite with proc. rewrite Hr, Hc. subst p0.
    autorewrite with proc. reflexivity.
  - rewrite (GetEntriesAndEventNr_no_tree (boot loc fs txt) file fd Hopen Htree).
    cbn [faulted final]. split; [reflexivity|].
    exists (-2), (-1), (-1). autorewrite with proc. reflexivity.
Qed.

(** C5.  A file opens.  GetEntriesAndEventNr.C finishes having printed
    exactly the four lines of a report.  So does GetEntries.C when the file
    holds the tree "T"; without the tree it prints the first two lines and
    faults on the null tree pointer before the event numbers are printed. *)
Theorem C5_console_lines loc fs txt file fd :
  fs (loc file) = Some fd ->
  (faulted (GetEntriesAndEventNr file (boot loc fs txt)) = false /\
   exists n first last,
     console (final (GetEntriesAndEventNr file (boot loc fs txt)))
     = report file n first last)
  /\
  (forall t,
     fKeys fd "T" = Some t ->
     faulted (GetEntries file (boot loc fs txt)) = false /\
     exists n first last,
       console (final (GetEntries file (boot loc fs txt)))
       = report file n first last)
  /\
  (fKeys fd "T" = None ->
   faulted (GetEntries file (boot loc fs txt)) = true /\
   length (console (final (GetEntries file (boot loc fs txt)))) = 2%nat /\
   forall n first last,
     console (final (GetEntries file (boot loc fs txt)))
     <> report file n first last).
Proof.
  intros Hopen. split; [|split].
  - apply (GetEntriesAndEventNr_report loc fs txt file fd Hopen).
  - intros t Htree.
    destruct (GetEntries_tree_report loc fs txt file fd t Hopen Htree)
      as (Hf & first & last & Hc).
    split; [exact Hf|]. exists (wrap32 (fEntries t)), first, last. exact Hc.
  - intros Htree.
    rewrite (GetEntries_no_tree (boot loc fs txt) file fd Hopen Htree).
    cbn [faulted final]. autorewrite with proc. cbn [redirect boot console app].
    repeat split. intros n first last H. discriminate H.
Qed.

Lemma C5_console_lines_witness :
  faulted (GetEntries "run.root" (boot id (disk file_noT) no_text)) = true /\
  length (console (final (GetEntries "run.root"
                            (boot id (disk file_noT) no_text)))) = 2%nat.
Proof.
  destruct (C5_console_lines id (disk file_noT) no_text "run.root" file_noT
              eq_refl) as (_ & _ & HA).
  destruct (HA eq_refl) as (Hf & Hl & _). split; assumption.
Defined.

(** ** C6 *)

(** C6, as amended.  A file opens.  GetNumbers.C finishes, prints nothing on
    the console, leaves every other text file alone and appends to
    numbers.txt: with the tree "T", the line "nEntries n" and the scans of
    "eventnumber" from row 0 and from row n-1, where n is the count as an
    [int]; without the tree, the line " ***** T is null, dummy values" and
    then the lines "dummyEntries -1", "dummyFirst -1", "dummyLast -1". *)
Theorem C6_numbers_txt loc fs txt file fd :
  fs (loc file) = Some fd ->
  faulted (GetNumbers file (boot loc fs txt)) = false /\
  console (final (GetNumbers file (boot loc fs txt))) = [] /\
  (forall name,
     name <> "numbers.txt" ->
     texts (final (GetNumbers file (boot loc fs txt))) name = txt name) /\
  texts (final (GetNumbers file (boot loc fs txt))) "numbers.txt"
  = (txt "numbers.txt" ++
     match fKeys fd "T" with
     | Some t => dump (wrap32 (fEntries t)) (sub32 (wrap32 (fEntries t)) 1)
     | None => dummies
     end)%list /\
  (forall t,
     fKeys fd "T" = Some t ->
     wrap32 (fEntries t) <> -2147483648 ->
     sub32 (wrap32 (fEntries t)) 1 = wrap32 (fEntries t) - 1).
Proof.
  intros Hopen.
  assert (Hsub : forall t, wrap32 (fEntries t) <> -2147483648 ->
                   sub32 (wrap32 (fEntries t)) 1 = wrap32 (fEntries t) - 1).
  { intros t Hmin. unfold sub32.
    pose proof (wrap32_range (fEntries t)).
    apply wrap32_small. lia. }
  destruct (fKeys fd "T") as [t|] eqn:Htree.
  - destruct (GetNumbers_tree_text loc fs txt file fd t Hopen Htree)
      as (Hf & Hc & Ht).
    split; [exact Hf|]. split; [exact Hc|]. split; [|split].
    + intros name Hname. rewrite Ht.
      apply String.eqb_neq in Hname. rewrite Hname. reflexivity.
    + rewrite Ht. reflexivity.
    + intros t' _. apply Hsub.
  - destruct (GetNumbers_no_tree_text loc fs txt file fd Hopen Htree)
      as (Hf & Hc & Ht).
    split; [exact Hf|]. split; [exact Hc|]. split; [|split].
    + intros name Hname. rewrite Ht.
      apply String.eqb_neq in Hname. rewrite Hname. reflexivity.
    + rewrite Ht. reflexivity.
    + intros t' _. apply Hsub.
Qed.

Lemma C6_numbers_txt_witness :
  texts (final (GetNumbers "run.root" (boot id (disk file3) no_text)))
        "numbers.txt"
  = dump 3 2 /\
  texts (final (GetNumbers "run.root" (boot id (disk file_noT) no_text)))
        "numbers.txt"
  = dummies.
Proof.
  split.
  - apply (C6_numbers_txt id (disk file3) no_text "run.root" file3 eq_refl).
  - apply (C6_numbers_txt id (disk file_noT) no_text "run.root" file_noT
             eq_refl).
Defined.

(** C6 as stated fails: without the tree numbers.txt gets four lines, the
    first of them the one announcing the dummy values. *)
Lemma C6_dummy_lines_counterexample :
  fKeys file_noT "T" = None /\
  texts (final (GetNumbers "run.root" (boot id (disk file_noT) no_text)))
        "numbers.txt"
  <> [Line "dummyEntries -1"; Line "dummyFirst -1"; Line "dummyLast -1"] /\
  texts (final (GetNumbers "run.root" (boot id (disk file_noT) no_text)))
        "numbers.txt"
  = [Line " ***** T is null, dummy values";
     Line "dummyEntries -1"; Line "dummyFirst -1"; Line "dummyLast -1"].
Proof.
  repeat split; try reflexivity.
  intros H. vm_compute in H. discriminate H.
Qed.

(** ** What a run depends on *)

Lemma buffer_load lf t e p :
  buffer lf (load t e p) = if inside t e then fColumn lf e else buffer lf p.
Proof.
  unfold buffer, load. destruct (inside t e); reflexivity.
Qed.

Lemma sync_load t e p :
  sync (load t e p)
  = if inside t e
    then match fAddress p with
         | Some b => Some (fObjects b e)
         | None => sync p
         end
    else sync p.
Proof. unfold load. destruct (inside t e); reflexivity. Qed.

(** The pointer at the two tests depends on the process only through the
    branch bound before. *)
Lemma sync_tests_depend t p q :
  fAddress p = fAddress q ->
  sync (at_first_test t p) = sync (at_first_test t q) /\
  sync (at_second_test t p) = sync (at_second_test t q).
Proof.
  intros H.
  rewrite !at_second_test_load, !at_first_test_load.
  repeat (rewrite sync_load || rewrite load_fAddress).
  destruct (fBranches t "DST#Sync"); cbn; rewrite ?H; split; reflexivity.
Qed.

(** The console of the two console macros does not depend on the text files
    the process finds. *)
Lemma GetEntries_console_txt loc fs file txt txt' :
  faulted (GetEntries file (boot loc fs txt'))
  = faulted (GetEntries file (boot loc fs txt)) /\
  console (final (GetEntries file (boot loc fs txt')))
  = console (final (GetEntries file (boot loc fs txt))).
Proof.
  destruct (fs (loc file)) as [fd|] eqn:Hopen.
  - destruct (fKeys fd "T") as [t|] eqn:Htree.
    + destruct (fLeaves t "eventnumber") as [lf|] eqn:Hl.
      * rewrite (GetEntries_leaf (boot loc fs txt) file fd Hopen t Htree lf Hl).
        rewrite (GetEntries_leaf (boot loc fs txt') file fd Hopen t Htree lf Hl).
        cbn [faulted final]. split; [reflexivity|].
        autorewrite with proc. cbn [redirect boot].
        rewrite !buffer_load, !buffer_counted. reflexivity.
      * rewrite (GetEntries_no_leaf (boot loc fs txt) file fd Hopen t Htree Hl).
        rewrite (GetEntries_no_leaf (boot loc fs txt') file fd Hopen t Htree Hl).
        cbn [faulted final]. split; [reflexivity|].
        autorewrite with proc. reflexivity.
    + rewrite (GetEntries_no_tree (boot loc fs txt) file fd Hopen Htree).
      rewrite (GetEntries_no_tree (boot loc fs txt') file fd Hopen Htree).
      cbn [faulted final]. split; [reflexivity|].
      autorewrite with proc. reflexivity.
  - rewrite (GetEntries_unopened (boot loc fs txt) file Hopen).
    rewrite (GetEntries_unopened (boot loc fs txt') file Hopen).
    cbn [faulted final]. split; [reflexivity|].
    autorewrite with proc. reflexivity.
Qed.

Lemma GetEntriesAndEventNr_console_txt loc fs file txt txt' :
  faulted (GetEntriesAndEventNr file (boot loc fs txt'))
  = faulted (GetEntriesAndEventNr file (boot loc fs txt)) /\
  console (final (GetEntriesAndEventNr file (boot loc fs txt')))
  = console (final (GetEntriesAndEventNr file (boot loc fs txt))).
Proof.
  destruct (fs (loc file)) as [fd|] eqn:Hopen.
  - destruct (fKeys fd "T") as [t|] eqn:Htree.
    + rewrite (GetEntriesAndEventNr_tree (boot loc fs txt) file fd t Hopen Htree).
      rewrite (GetEntriesAndEventNr_tree (boot loc fs txt') file fd t Hopen Htree).
      cbn [faulted final]. split; [reflexivity|].
      set (p0 := counted file (fEntries t) (boot loc fs txt)).
      set (q0 := counted file (fEntries t) (boot loc fs txt')).
      destruct (sync_tests_depend t q0 p0) as [-> ->].
      { subst p0 q0. autorewrite with proc. reflexivity. }
      destruct (at_second_test_fields t p0) as (Hc & Hr & _).
      destruct (at_second_test_fields t q0) as (Hc' & Hr' & _).
      autorewrite with proc. rewrite Hr, Hc, Hr', Hc'. subst p0 q0.
      autorewrite with proc. reflexivity.
    + rewrite (GetEntriesAndEventNr_no_tree (boot loc fs txt) file fd Hopen Htree).
      rewrite (GetEntriesAndEventNr_no_tree (boot loc fs txt') file fd Hopen Htree).
      cbn [faulted final]. split; [reflexivity|].
      autorewrite with proc. reflexivity.
  - rewrite (GetEntriesAndEventNr_unopened (boot loc fs txt) file Hopen).
    rewrite (GetEntriesAndEventNr_unopened (boot loc fs txt') file Hopen).
    cbn [faulted final]. split; [reflexivity|].
    autorewrite with proc. reflexivity.
Qed.

(** What GetNumbers.C appends to numbers.txt is the same whatever the text
    files held before. *)
Lemma GetNumbers_appends loc fs file :
  exists rep, forall txt,
    texts (final (GetNumbers file (boot loc fs txt))) "numbers.txt"
    = (txt "numbers.txt" ++ rep)%list.
Proof.
  destruct (fs (loc file)) as [fd|] eqn:Hopen.
  - destruct (fKeys fd "T") as [t|] eqn:Htree.
    + exists (dump (wrap32 (fEntries t)) (sub32 (wrap32 (fEntries t)) 1)).
      intros txt.
      destruct (GetNumbers_tree_text loc fs txt file fd t Hopen Htree)
        as (_ & _ & Ht).
      rewrite Ht. reflexivity.
    + exists dummies. intros txt.
      destruct (GetNumbers_no_tree_text loc fs txt file fd Hopen Htree)
        as (_ & _ & Ht).
      rewrite Ht. reflexivity.
  - exists [Diagnostic]. intros txt.
    rewrite (GetNumbers_unopened (boot loc fs txt) file Hopen).
    cbn [final]. autorewrite with proc. reflexivity.
Qed.

(** ** The input is only read *)

Lemma keeps_ret {X A} (obs : Proc -> X) (a : A) : keeps obs (ret a).
Proof. intros p. reflexivity. Qed.

Lemma keeps_bind {X A B} (obs : Proc -> X) (m : Run A) (k : A -> Run B) :
  keeps obs m -> (forall a, keeps obs (k a)) -> keeps obs (bind m k).
Proof.
  intros Hm Hk p. unfold bind.
  specialize (Hm p). destruct (m p) as [a p'|p']; cbn in *.
  - rewrite Hk. exact Hm.
  - exact Hm.
Qed.

Lemma keeps_gets {X A} (obs : Proc -> X) (f : Proc -> A) : keeps obs (gets f).
Proof. intros p. reflexivity. Qed.

Lemma keeps_deref {X A} (obs : Proc -> X) (ptr : option A) :
  (forall o p, obs (complain o p) = obs p) -> keeps obs (deref ptr).
Proof. intros H p. unfold deref. destruct ptr; cbn; auto. Qed.

Lemma keeps_modify {X} (obs : Proc -> X) (f : Proc -> Proc) :
  (forall p, obs (f p) = obs p) -> keeps obs (modify f).
Proof. intros H p. cbn. apply H. Qed.

Ltac unfold_framework :=
  unfold gSystem_IgnoreSignals, gSystem_Load, gSystem_RedirectOutput,
    FROG_location, TFile_Open, TFile_Get, TTree_GetEntries, TTree_GetLeaf,
    TTree_GetEntry, TLeaf_GetValueLong64, TTree_SetBranchAddress,
    SyncObject_EventNumber, TTree_SetScanField, TTree_Scan, cout.

Ltac keeps_files :=
  unfold_framework;
  repeat first
    [ apply keeps_ret
    | apply keeps_gets
    | apply keeps_deref; intros; autorewrite with proc; reflexivity
    | apply keeps_modify; intros; autorewrite with proc; reflexivity
    | apply keeps_bind; [|intros]
    | match goal with
      | |- keeps _ (match ?x with _ => _ end) => destruct x
      end ].

Lemma GetEntries_keeps_files file : keeps files (GetEntries file).
Proof. unfold GetEntries. keeps_files. Qed.

Lemma GetEntriesAndEventNr_keeps_files file :
  keeps files (GetEntriesAndEventNr file).
Proof. unfold GetEntriesAndEventNr. keeps_files. Qed.

Lemma GetNumbers_keeps_files file : keeps files (GetNumbers file).
Proof. unfold GetNumbers. keeps_files. Qed.

(** ** What the console macros leave of the directory *)

Lemma keeps_while_ret {X A} inv (obs : Proc -> X) (a : A) :
  keeps_while inv obs (ret a).
Proof. intros p H. split; [exact H|reflexivity]. Qed.

Lemma keeps_while_gets {X A} inv (obs : Proc -> X) (f : Proc -> A) :
  keeps_while inv obs (gets f).
Proof. intros p H. split; [exact H|reflexivity]. Qed.

Lemma keeps_while_modify {X} inv (obs : Proc -> X) (f : Proc -> Proc) :
  (forall p, inv p -> inv (f p) /\ obs (f p) = obs p) ->
  keeps_while inv obs (modify f).
Proof. intros H p Hp. exact (H p Hp). Qed.

Lemma keeps_while_deref {X A} inv (obs : Proc -> X) (ptr : option A) :
  (forall o p, inv p -> inv (complain o p) /\ obs (complain o p) = obs p) ->
  keeps_while inv obs (deref ptr).
Proof.
  intros H p Hp. unfold deref. destruct ptr; cbn.
  - split; [exact Hp|reflexivity].
  - exact (H Diagnostic p Hp).
Qed.

Lemma keeps_while_bind {X A B} inv (obs : Proc -> X)
  (m : Run A) (k : A -> Run B) :
  keeps_while inv obs m -> (forall a, keeps_while inv obs (k a)) ->
  keeps_while inv obs (bind m k).
Proof.
  intros Hm Hk p Hp. unfold bind.
  destruct (Hm p Hp) as [Hi Ho]. destruct (m p) as [a p'|p']; cbn in *.
  - destruct (Hk a p' Hi) as [Hi' Ho']. split; [exact Hi'|congruence].
  - split; assumption.
Qed.

Lemma write_on_console o p :
  on_console p ->
  on_console (write o p) /\ directory (write o p) = directory p.
Proof.
  unfold on_console, write. intros H. rewrite H.
  split; [exact H|reflexivity].
Qed.

Lemma complain_on_console o p :
  on_console p ->
  on_console (complain o p) /\ directory (complain o p) = directory p.
Proof.
  unfold on_console, complain. intros H. rewrite H.
  split; [exact H|reflexivity].
Qed.

Lemma load_on_console t e p :
  on_console p ->
  on_console (load t e p) /\ directory (load t e p) = directory p.
Proof.
  unfold on_console, directory. intros H.
  rewrite load_redirect, load_present, load_files, load_texts. auto.
Qed.

Ltac keeps_directory :=
  unfold_framework;
  repeat first
    [ apply keeps_while_ret
    | apply keeps_while_gets
    | apply keeps_while_deref; intros; apply complain_on_console; assumption
    | apply keeps_while_modify; intros;
      first [ apply write_on_console; assumption
            | apply load_on_console; assumption
            | split; [assumption|reflexivity] ]
    | apply keeps_while_bind; [|intros]
    | match goal with
      | |- keeps_while _ _ (match ?x with _ => _ end) => destruct x
      end ].

Lemma GetEntries_keeps_directory file :
  keeps_while on_console directory (GetEntries file).
Proof. unfold GetEntries. keeps_directory. Qed.

Lemma GetEntriesAndEventNr_keeps_directory file :
  keeps_while on_console directory (GetEntriesAndEventNr file).
Proof. unfold GetEntriesAndEventNr. keeps_directory. Qed.

Lemma on_disk_directory p q :
  directory p = directory q -> forall path, on_disk p path = on_disk q path.
Proof.
  unfold directory, on_disk. intros [= H1 H2 H3] path.
  rewrite H1, H2, H3. reflexivity.
Qed.

(** ** C7 *)

(** C7.  A second run of a macro, in a new process over what the first run
    left behind, gives the report of the first: the console macros print the
    same lines and end the same way, and GetNumbers.C appends to numbers.txt
    what it appended before.  The report does not depend on the text files
    the process finds. *)
Theorem C7_second_run_same_report loc fs txt file :
  (faulted (rerun GetEntries file loc fs txt)
   = faulted (GetEntries file (boot loc fs txt)) /\
   console (final (rerun GetEntries file loc fs txt))
   = console (final (GetEntries file (boot loc fs txt))))
  /\
  (faulted (rerun GetEntriesAndEventNr file loc fs txt)
   = faulted (GetEntriesAndEventNr file (boot loc fs txt)) /\
   console (final (rerun GetEntriesAndEventNr file loc fs txt))
   = console (final (GetEntriesAndEventNr file (boot loc fs txt))))
  /\
  (exists rep,
     texts (final (GetNumbers file (boot loc fs txt))) "numbers.txt"
     = (txt "numbers.txt" ++ rep)%list /\
     texts (final (rerun GetNumbers file loc fs txt)) "numbers.txt"
     = ((txt "numbers.txt" ++ rep) ++ rep)%list)
  /\
  (forall txt',
     console (final (GetEntries file (boot loc fs txt')))
     = console (final (GetEntries file (boot loc fs txt))) /\
     console (final (GetEntriesAndEventNr file (boot loc fs txt')))
     = console (final (GetEntriesAndEventNr file (boot loc fs txt)))).
Proof.
  split; [|split; [|split]].
  - unfold rerun.
    rewrite (GetEntries_keeps_files file (boot loc fs txt)). cbn [files boot].
    apply GetEntries_console_txt.
  - unfold rerun.
    rewrite (GetEntriesAndEventNr_keeps_files file (boot loc fs txt)).
    cbn [files boot]. apply GetEntriesAndEventNr_console_txt.
  - destruct (GetNumbers_appends loc fs file) as [rep Hrep].
    exists rep. split; [apply Hrep|].
    unfold rerun.
    rewrite (GetNumbers_keeps_files file (boot loc fs txt)). cbn [files boot].
    rewrite Hrep, Hrep. reflexivity.
  - intros txt'. split.
    + apply GetEntries_console_txt.
    + apply GetEntriesAndEventNr_console_txt.
Qed.

(** ** C8 *)

Lemma GetNumbers_keeps_other_files file p path :
  path <> "numbers.txt" ->
  on_disk (final (GetNumbers file p)) path = on_disk p path.
Proof.
  intros Hpath. apply String.eqb_neq in Hpath.
  assert (Hw : forall o q,
            redirect q = Some "numbers.txt" ->
            redirect (write o q) = Some "numbers.txt" /\
            on_disk (write o q) path = on_disk q path).
  { intros o q Hq. unfold on_disk.
    rewrite write_redirect, write_present, write_files, write_texts, Hq, Hpath.
    auto. }
  assert (Hc : forall o q,
            redirect q = Some "numbers.txt" ->
            on_disk (complain o q) path = on_disk q path).
  { intros o q Hq. unfold on_disk.
    rewrite complain_present, complain_files, complain_texts, Hq, Hpath.
    reflexivity. }
  assert (H0 : redirect (reopen "numbers.txt" p) = Some "numbers.txt" /\
               on_disk (reopen "numbers.txt" p) path = on_disk p path).
  { split; [reflexivity|]. unfold on_disk.
    rewrite reopen_present, reopen_files, reopen_texts, Hpath. reflexivity. }
  destruct H0 as [Hr0 Hd0].
  destruct (files p (frog p file)) as [fd|] eqn:Hopen.
  - destruct (fKeys fd "T") as [t|] eqn:Htree.
    + rewrite (GetNumbers_tree p file fd Hopen t Htree). cbn [final].
      destruct (Hw (Line ("nEntries " ++ show (wrap32 (fEntries t)))) _ Hr0)
        as [Hr1 Hd1].
      destruct (Hw (ScanTable "eventnumber" "" "" 1 0) _ Hr1) as [Hr2 Hd2].
      destruct (Hw (ScanTable "eventnumber" "" "" 1
                      (sub32 (wrap32 (fEntries t)) 1)) _ Hr2) as [_ Hd3].
      congruence.
    + rewrite (GetNumbers_no_tree p file fd Hopen Htree). cbn [final].
      destruct (Hw (Line " ***** T is null, dummy values") _ Hr0)
        as [Hr1 Hd1].
      destruct (Hw (Line ("dummyEntries " ++ show (-1))) _ Hr1) as [Hr2 Hd2].
      destruct (Hw (Line ("dummyFirst " ++ show (-1))) _ Hr2) as [Hr3 Hd3].
      destruct (Hw (Line ("dummyLast " ++ show (-1))) _ Hr3) as [_ Hd4].
      congruence.
  - rewrite (GetNumbers_unopened p file Hopen). cbn [final].
    rewrite (Hc Diagnostic _ Hr0). exact Hd0.
Qed.

(** C8, as amended.  Whatever state a process is in and however the run
    ends, each of the three macros leaves the ROOT objects of every file as
    it found them.  The console macros, started with the output on the
    console, leave every file on disk as it was.  GetNumbers.C leaves every
    file other than numbers.txt as it was: it writes to its input only when
    the input is numbers.txt itself. *)
Theorem C8_input_unchanged file p :
  (files (final (GetEntries file p)) = files p /\
   files (final (GetEntriesAndEventNr file p)) = files p /\
   files (final (GetNumbers file p)) = files p)
  /\
  (redirect p = None ->
   forall path,
     on_disk (final (GetEntries file p)) path = on_disk p path /\
     on_disk (final (GetEntriesAndEventNr file p)) path = on_disk p path)
  /\
  (forall path,
     path <> "numbers.txt" ->
     on_disk (final (GetNumbers file p)) path = on_disk p path).
Proof.
  split; [|split].
  - split; [|split].
    + apply GetEntries_keeps_files.
    + apply GetEntriesAndEventNr_keeps_files.
    + apply GetNumbers_keeps_files.
  - intros Hr path. split.
    + apply on_disk_directory, (GetEntries_keeps_directory file p Hr).
    + apply on_disk_directory, (GetEntriesAndEventNr_keeps_directory file p Hr).
  - intros path. apply GetNumbers_keeps_other_files.
Qed.

Lemma C8_input_unchanged_witness :
  on_disk (final (GetEntries "run.root" (boot id (disk file3) no_text)))
          "run.root"
  = Some (mkOnDisk (Some file3) []) /\
  on_disk (final (GetNumbers "run.root" (boot id (disk file3) no_text)))
          "run.root"
  = Some (mkOnDisk (Some file3) []).
Proof.
  destruct (C8_input_unchanged "run.root" (boot id (disk file3) no_text))
    as (_ & HA & HN).
  split.
  - rewrite (proj1 (HA eq_refl "run.root")). reflexivity.
  - rewrite (HN "run.root"); [reflexivity | discriminate].
Defined.

(** C8 as stated fails in GetNumbers.C: given the ROOT file numbers.txt as
    its input, the macro appends its output to that very file. *)
Lemma C8_output_on_input_counterexample :
  files (boot id (only "numbers.txt" file3) no_text) "numbers.txt"
  = Some file3 /\
  on_disk (final (GetNumbers "numbers.txt"
                    (boot id (only "numbers.txt" file3) no_text)))
          "numbers.txt"
  <> on_disk (boot id (only "numbers.txt" file3) no_text) "numbers.txt" /\
  option_map text
    (on_disk (boot id (only "numbers.txt" file3) no_text) "numbers.txt")
  = Some [] /\
  option_map text
    (on_disk (final (GetNumbers "numbers.txt"
                       (boot id (only "numbers.txt" file3) no_text)))
             "numbers.txt")
  = Some (dump 3 2).
Proof.
  split; [reflexivity|]. split; [|split; reflexivity].
  intros H. apply (f_equal (option_map text)) in H.
  vm_compute in H. discriminate H.
Qed.

(** ** C9 *)

(** C9.  A file holds the tree "T".  In GetEntries.C either the leaf is
    missing, no entry is asked for and both event numbers stay -1, or the
    leaf is there, the entries 0 and nEntries-1 are asked for and both event
    numbers are taken from the buffer of the leaf.  In
    GetEntriesAndEventNr.C either the pointer [sync] is null at both tests
    and both event numbers stay -1, or it is set at both tests and both
    event numbers are taken from the object it points to. *)
Theorem C9_both_or_neither loc fs txt file fd t :
  fs (loc file) = Some fd ->
  fKeys fd "T" = Some t ->
  let n := wrap32 (fEntries t) in
  let p1 := load t 0 (counted file n (boot loc fs txt)) in
  let p2 := load t (sub32 n 1) p1 in
  let q0 := counted file (fEntries t) (boot loc fs txt) in
  ((fLeaves t "eventnumber" = None /\
    requested (final (GetEntries file (boot loc fs txt))) = [] /\
    console (final (GetEntries file (boot loc fs txt)))
    = report file n (-1) (-1))
   \/
   (exists lf,
      fLeaves t "eventnumber" = Some lf /\
      requested (final (GetEntries file (boot loc fs txt))) = [0; sub32 n 1] /\
      console (final (GetEntries file (boot loc fs txt)))
      = report file n (buffer lf p1) (buffer lf p2)))
  /\
  ((sync (at_first_test t q0) = None /\
    sync (at_second_test t q0) = None /\
    console (final (GetEntriesAndEventNr file (boot loc fs txt)))
    = report file (fEntries t) (-1) (-1))
   \/
   (exists o1 o2,
      sync (at_first_test t q0) = Some o1 /\
      sync (at_second_test t q0) = Some o2 /\
      console (final (GetEntriesAndEventNr file (boot loc fs txt)))
      = report file (fEntries t) (EventNumber o1) (EventNumber o2))).
Proof.
  intros Hopen Htree n p1 p2 q0. split.
  - destruct (fLeaves t "eventnumber") as [lf|] eqn:Hl.
    + right. exists lf. split; [reflexivity|].
      rewrite (GetEntries_leaf (boot loc fs txt) file fd Hopen t Htree lf Hl).
      cbn [final]. fold n. fold p1. fold p2.
      autorewrite with proc. subst p2 p1.
      autorewrite with proc. cbn [redirect boot requested].
      split; reflexivity.
    + left. split; [reflexivity|].
      rewrite (GetEntries_no_leaf (boot loc fs txt) file fd Hopen t Htree Hl).
      cbn [final]. autorewrite with proc. split; reflexivity.
  - rewrite (GetEntriesAndEventNr_tree (boot loc fs txt) file fd t Hopen Htree).
    cbn [final]. fold q0.
    assert (Hcons : forall a b,
      console (write (Line ("Last event number: " ++ show b))
                 (write (Line ("First event number: " ++ show a))
                    (at_second_test t q0)))
      = report file (fEntries t) a b).
    { intros a b. destruct (at_second_test_fields t q0) as (Hc & Hr & _).
      autorewrite with proc. rewrite Hr, Hc. subst q0.
      autorewrite with proc. reflexivity. }
    rewrite Hcons.
    destruct (sync_tests_agree t q0) as [Hnull Hset].
    destruct (sync (at_first_test t q0)) as [o1|] eqn:E1.
    + right. destruct (Hset o1 eq_refl) as [o2 E2].
      exists o1, o2. rewrite E2. repeat split; reflexivity.
    + left. rewrite (Hnull eq_refl). repeat split; reflexivity.
Qed.

Lemma C9_both_or_neither_witness :
  requested (final (GetEntries "run.root" (boot id (disk file3) no_text)))
  = [0; 2] /\
  sync (at_second_test tree3 (counted "run.root" 3 (boot id (disk file3) no_text)))
  = Some (mkSync 103).
Proof.
  destruct (C9_both_or_neither id (disk file3) no_text "run.root" file3 tree3
              eq_refl eq_refl) as [HA HB].
  split.
  - destruct HA as [(Hl & _) | (lf & _ & Hq & _)]; [discriminate Hl|exact Hq].
  - destruct HB as [(H1 & _) | _];
      [vm_compute in H1; discriminate H1 | reflexivity].
Defined.

(** ** C10 *)

(** C10, as amended.  A file holds the tree "T" with N entries.
    GetEntries.C and GetNumbers.C report the count n that N gives as an
    [int]: n lies in the range of [int], differs from N by a multiple of
    2^32, and is not N once N reaches 2^31.  The last entry GetEntries.C
    asks for, and the row of the second scan of GetNumbers.C, is n-1
    computed on [int]: n-1 itself unless n is the least [int], where it is
    the greatest.  It is not N-1 once N exceeds 2^31; at N = 2^31 it is. *)
Theorem C10_count_is_an_int loc fs txt file fd t :
  fs (loc file) = Some fd ->
  fKeys fd "T" = Some t ->
  let n := wrap32 (fEntries t) in
  (exists first last,
     console (final (GetEntries file (boot loc fs txt)))
     = report file n first last)
  /\
  (forall lf,
     fLeaves t "eventnumber" = Some lf ->
     (n <> -2147483648 ->
      requested (final (GetEntries file (boot loc fs txt))) = [0; n - 1]) /\
     (n = -2147483648 ->
      requested (final (GetEntries file (boot loc fs txt)))
      = [0; 2147483647]))
  /\
  ((n <> -2147483648 ->
    texts (final (GetNumbers file (boot loc fs txt))) "numbers.txt"
    = (txt "numbers.txt" ++ dump n (n - 1))%list) /\
   (n = -2147483648 ->
    texts (final (GetNumbers file (boot loc fs txt))) "numbers.txt"
    = (txt "numbers.txt" ++ dump n 2147483647)%list))
  /\
  -2147483648 <= n < 2147483648
  /\
  (n - fEntries t) mod 4294967296 = 0
  /\
  (2147483648 <= fEntries t -> n <> fEntries t)
  /\
  (2147483648 < fEntries t ->
   n - 1 <> fEntries t - 1 /\ 2147483647 <> fEntries t - 1)
  /\
  (fEntries t = 2147483648 ->
   n = -2147483648 /\ 2147483647 = fEntries t - 1).
Proof.
  intros Hopen Htree n.
  pose proof (wrap32_range (fEntries t)) as Hrange. fold n in Hrange.
  assert (Hsub : n <> -2147483648 -> sub32 n 1 = n - 1).
  { intros Hmin. unfold sub32. apply wrap32_small. lia. }
  assert (Hmin : n = -2147483648 -> sub32 n 1 = 2147483647).
  { intros ->. reflexivity. }
  split; [|split; [|split; [|split; [|split; [|split; [|split]]]]]].
  - apply (GetEntries_tree_report loc fs txt file fd t Hopen Htree).
  - intros lf Hl.
    rewrite (GetEntries_leaf (boot loc fs txt) file fd Hopen t Htree lf Hl).
    cbn [final]. fold n. autorewrite with proc. cbn [requested boot app].
    split; intros H; [rewrite (Hsub H)|rewrite (Hmin H)]; reflexivity.
  - destruct (GetNumbers_tree_text loc fs txt file fd t Hopen Htree)
      as (_ & _ & Ht).
    rewrite Ht. cbn [String.eqb Ascii.eqb Bool.eqb]. fold n.
    split; intros H; [rewrite (Hsub H)|rewrite (Hmin H)]; reflexivity.
  - exact Hrange.
  - apply wrap32_congruent.
  - intros Hbig. lia.
  - intros Hbig. lia.
  - intros HN. subst n. rewrite HN. split; reflexivity.
Qed.

Lemma C10_count_is_an_int_witness :
  requested (final (GetEntries "run.root"
                      (boot id (disk file_negative) no_text)))
  = [0; -2147483644] /\
  wrap32 (fEntries tree_negative) <> fEntries tree_negative.
Proof.
  destruct (C10_count_is_an_int id (disk file_negative) no_text "run.root"
              file_negative tree_negative eq_refl eq_refl)
    as (_ & Hq & _ & _ & _ & Hne & _).
  split.
  - destruct (Hq (mkLeaf 0 (fun i => i)) eq_refl) as [H _].
    apply H. discriminate.
  - apply Hne. discriminate.
Defined.

(** C10 as stated fails for the entry asked for last.  In a tree of
    2^31 + 5 entries it is not the count as an [int] but one less; in a
    tree of 2^31 entries it is the last entry of the tree. *)
Lemma C10_row_index_counterexample :
  requested (final (GetEntries "run.root"
                      (boot id (disk file_negative) no_text)))
  <> [0; wrap32 (fEntries tree_negative)] /\
  requested (final (GetEntries "run.root"
                      (boot id (disk file_negative) no_text)))
  = [0; wrap32 (fEntries tree_negative) - 1] /\
  2147483648 <= fEntries tree_big /\
  requested (final (GetEntries "run.root" (boot id (disk file_big) no_text)))
  = [0; fEntries tree_big - 1].
Proof.
  split; [|split; [|split]].
  - intros H. vm_compute in H. discriminate H.
  - reflexivity.
  - discriminate.
  - reflexivity.
Qed.

(** * Further properties of the macros *)

(** ** A file that cannot be opened *)

(** X1.  When the file cannot be opened every macro faults on the null file
    pointer.  The console macros have printed the line that names the file
    and nothing else.  GetNumbers.C has redirected the output by then:
    nothing reaches the console, numbers.txt exists after the run, and it
    holds what it held before followed by what is reported of the fault,
    with no line of the macro's own. *)
Theorem X1_unopened_file loc fs txt file :
  fs (loc file) = None ->
  (faulted (GetEntries file (boot loc fs txt)) = true /\
   console (final (GetEntries file (boot loc fs txt)))
   = [Line ("Getting events for " ++ file)])
  /\
  (faulted (GetEntriesAndEventNr file (boot loc fs txt)) = true /\
   console (final (GetEntriesAndEventNr file (boot loc fs txt)))
   = [Line ("Getting events for " ++ file)])
  /\
  (faulted (GetNumbers file (boot loc fs txt)) = true /\
   console (final (GetNumbers file (boot loc fs txt))) = [] /\
   present (final (GetNumbers file (boot loc fs txt))) "numbers.txt" = true /\
   texts (final (GetNumbers file (boot loc fs txt))) "numbers.txt"
   = (txt "numbers.txt" ++ [Diagnostic])%list).
Proof.
  intros Hopen. split; [|split].
  - rewrite (GetEntries_unopened (boot loc fs txt) file Hopen).
    cbn [faulted final]. autorewrite with proc. repeat split.
  - rewrite (GetEntriesAndEventNr_unopened (boot loc fs txt) file Hopen).
    cbn [faulted final]. autorewrite with proc. repeat split.
  - rewrite (GetNumbers_unopened (boot loc fs txt) file Hopen).
    cbn [faulted final]. autorewrite with proc. repeat split.
Qed.

Lemma X1_unopened_file_witness :
  faulted (GetEntries "gone.root" (boot id (disk file3) no_text)) = true /\
  texts (final (GetNumbers "gone.root" (boot id (disk file3) no_text)))
        "numbers.txt"
  = [Diagnostic].
Proof.
  destruct (X1_unopened_file id (disk file3) no_text "gone.root" eq_refl)
    as ((HA & _) & _ & (_ & _ & _ & HN)).
  split; assumption.
Defined.

(** ** When a macro faults *)

(** X2.  GetEntries.C faults exactly when the file cannot be opened or holds
    no tree "T"; GetEntriesAndEventNr.C and GetNumbers.C fault exactly when
    the file cannot be opened. *)
Theorem X2_fault_exactly_when loc fs txt file :
  (faulted (GetEntries file (boot loc fs txt)) = true <->
   match fs (loc file) with
   | Some fd => fKeys fd "T" = None
   | None => True
   end)
  /\
  (faulted (GetEntriesAndEventNr file (boot loc fs txt)) = true <->
   fs (loc file) = None)
  /\
  (faulted (GetNumbers file (boot loc fs txt)) = true <->
   fs (loc file) = None).
Proof.
  destruct (fs (loc file)) as [fd|] eqn:Hopen.
  - split; [|split].
    + destruct (fKeys fd "T") as [t|] eqn:Htree.
      * destruct (GetEntries_tree_report loc fs txt file fd t Hopen Htree)
          as [-> _].
        split; discriminate.
      * rewrite (GetEntries_no_tree (boot loc fs txt) file fd Hopen Htree).
        split; reflexivity.
    + destruct (GetEntriesAndEventNr_report loc fs txt file fd Hopen)
        as [-> _].
      split; discriminate.
    + destruct (fKeys fd "T") as [t|] eqn:Htree.
      * destruct (GetNumbers_tree_text loc fs txt file fd t Hopen Htree)
          as [-> _].
        split; discriminate.
      * destruct (GetNumbers_no_tree_text loc fs txt file fd Hopen Htree)
          as [-> _].
        split; discriminate.
  - rewrite (GetEntries_unopened (boot loc fs txt) file Hopen).
    rewrite (GetEntriesAndEventNr_unopened (boot loc fs txt) file Hopen).
    rewrite (GetNumbers_unopened (boot loc fs txt) file Hopen).
    cbn [faulted]. repeat split; auto.
Qed.

(** ** Where the output goes *)

(** X3.  In a process whose output is not redirected, the console macros
    leave every text file as it is and do not redirect the output, however
    the run ends. *)
Theorem X3_console_macros_leave_text_files file p :
  redirect p = None ->
  (texts (final (GetEntries file p)) = texts p /\
   redirect (final (GetEntries file p)) = None)
  /\
  (texts (final (GetEntriesAndEventNr file p)) = texts p /\
   redirect (final (GetEntriesAndEventNr file p)) = None).
Proof.
  intros Hr. split.
  - destruct (GetEntries_keeps_directory file p Hr) as [H1 H2].
    split; [|exact H1]. unfold directory in H2. congruence.
  - destruct (GetEntriesAndEventNr_keeps_directory file p Hr) as [H1 H2].
    split; [|exact H1]. unfold directory in H2. congruence.
Qed.

Lemma X3_console_macros_leave_text_files_witness :
  texts (final (GetEntries "run.root" (boot id (disk file3) no_text)))
  = no_text /\
  texts (final (GetEntriesAndEventNr "run.root" (boot id (disk file3) no_text)))
  = no_text.
Proof.
  destruct (X3_console_macros_leave_text_files "run.root"
              (boot id (disk file3) no_text) eq_refl) as [[HA _] [HB _]].
  split; assumption.
Defined.

(** X4.  GetNumbers.C prints nothing on the console, whatever file it is
    given and whatever the process printed before, and it ends with the
    output still redirected to numbers.txt. *)
Theorem X4_GetNumbers_stays_redirected file p :
  console (final (GetNumbers file p)) = console p /\
  redirect (final (GetNumbers file p)) = Some "numbers.txt".
Proof.
  destruct (files p (frog p file)) as [fd|] eqn:Hopen.
  - destruct (fKeys fd "T") as [t|] eqn:Htree.
    + rewrite (GetNumbers_tree p file fd Hopen t Htree). cbn [final].
      autorewrite with proc. cbn. split; reflexivity.
    + rewrite (GetNumbers_no_tree p file fd Hopen Htree). cbn [final].
      autorewrite with proc. cbn. split; reflexivity.
  - rewrite (GetNumbers_unopened p file Hopen). cbn. split; reflexivity.
Qed.

(** ** Counts beyond the range of [int] *)

Lemma inside_true t e : 0 <= e < fEntries t -> inside t e = true.
Proof.
  intros [H0 H1]. unfold inside.
  apply Z.leb_le in H0. apply Z.ltb_lt in H1. rewrite H0, H1. reflexivity.
Qed.

Lemma inside_negative t e : e < 0 -> inside t e = false.
Proof.
  intros H. unfold inside.
  destruct (Z.leb_spec 0 e); [lia|reflexivity].
Qed.

Lemma wrap32_below z : 0 <= z -> wrap32 z <= z.
Proof.
  intros H. unfold wrap32.
  pose proof (Z.mod_le (z + 2147483648) 4294967296 ltac:(lia) ltac:(lia)).
  lia.
Qed.

(** X5.  A tree with the leaf has N > 0 entries, and n is N as an [int].
    GetEntries.C always prints the value of entry 0 as the first event
    number.  When n is positive it prints the value of entry n-1 as the
    last one, whether or not n is N; when n is zero or negative (and not the
    least [int]) the entry n-1 it asks for is none of the tree, and the last
    event number printed is the first one again. *)
Theorem X5_last_event_of_truncated_count loc fs txt file fd t lf :
  fs (loc file) = Some fd ->
  fKeys fd "T" = Some t ->
  fLeaves t "eventnumber" = Some lf ->
  0 < fEntries t ->
  let n := wrap32 (fEntries t) in
  (0 < n ->
   console (final (GetEntries file (boot loc fs txt)))
   = report file n (fColumn lf 0) (fColumn lf (n - 1)))
  /\
  (-2147483648 < n <= 0 ->
   console (final (GetEntries file (boot loc fs txt)))
   = report file n (fColumn lf 0) (fColumn lf 0)).
Proof.
  intros Hopen Htree Hl Hpos n.
  pose proof (wrap32_range (fEntries t)) as Hrange.
  pose proof (wrap32_below (fEntries t) ltac:(lia)) as Hbelow.
  fold n in Hrange, Hbelow.
  assert (Hcons : n <> -2147483648 ->
    console (final (GetEntries file (boot loc fs txt)))
    = report file n (fColumn lf 0)
        (if inside t (n - 1) then fColumn lf (n - 1) else fColumn lf 0)).
  { intros Hmin.
    rewrite (GetEntries_leaf (boot loc fs txt) file fd Hopen t Htree lf Hl).
    cbn [final]. fold n. autorewrite with proc. cbn [redirect boot].
    unfold sub32. rewrite (wrap32_small (n - 1)) by lia.
    rewrite !buffer_load, buffer_counted.
    rewrite (inside_true t 0) by lia. reflexivity. }
  split.
  - intros Hn. rewrite Hcons by lia.
    rewrite (inside_true t (n - 1)) by lia. reflexivity.
  - intros Hn. rewrite Hcons by lia.
    rewrite (inside_negative t (n - 1)) by lia. reflexivity.
Qed.

Lemma X5_last_event_of_truncated_count_witness :
  console (final (GetEntries "run.root" (boot id (disk file_wrapped) no_text)))
  = report "run.root" 3 0 2 /\
  console (final (GetEntries "run.root" (boot id (disk file_negative) no_text)))
  = report "run.root" (-2147483643) 0 0.
Proof.
  split.
  - apply (X5_last_event_of_truncated_count id (disk file_wrapped) no_text
             "run.root" file_wrapped tree_wrapped (mkLeaf 0 (fun i => i))
             eq_refl eq_refl eq_refl eq_refl).
    reflexivity.
  - apply (X5_last_event_of_truncated_count id (disk file_negative) no_text
             "run.root" file_negative tree_negative (mkLeaf 0 (fun i => i))
             eq_refl eq_refl eq_refl eq_refl).
    split; [reflexivity | discriminate].
Defined.

(** X6.  For a tree of N entries, N within the range of [int],
    GetNumbers.C appends the line "nEntries N" and the scans from row 0 and
    from row N-1. *)
Theorem X6_GetNumbers_within_int loc fs txt file fd t :
  fs (loc file) = Some fd ->
  fKeys fd "T" = Some t ->
  0 <= fEntries t < 2147483648 ->
  texts (final (GetNumbers file (boot loc fs txt))) "numbers.txt"
  = (txt "numbers.txt" ++ dump (fEntries t) (fEntries t - 1))%list.
Proof.
  intros Hopen Htree Hint.
  destruct (GetNumbers_tree_text loc fs txt file fd t Hopen Htree)
    as (_ & _ & Ht).
  rewrite Ht. cbn [String.eqb Ascii.eqb Bool.eqb].
  unfold sub32. rewrite (wrap32_small (fEntries t)) by lia.
  rewrite (wrap32_small (fEntries t - 1)) by lia. reflexivity.
Qed.

Lemma X6_GetNumbers_within_int_witness :
  texts (final (GetNumbers "run.root" (boot id (disk file3) no_text)))
        "numbers.txt"
  = dump 3 2.
Proof.
  apply (X6_GetNumbers_within_int id (disk file3) no_text "run.root" file3
           tree3 eq_refl eq_refl).
  split; [discriminate | reflexivity].
Defined.

(** ** The entries a macro asks for *)

(** X7.  With the tree "T" of N entries, GetEntriesAndEventNr.C asks for the
    entries 0 and N-1 and no other, whether or not the tree has the branch
    "DST#Sync"; without the tree it asks for none.  GetNumbers.C never asks
    the tree for an entry. *)
Theorem X7_entries_asked_for loc fs txt file fd :
  fs (loc file) = Some fd ->
  (forall t,
     fKeys fd "T" = Some t ->
     0 <= fEntries t < 9223372036854775808 ->
     requested (final (GetEntriesAndEventNr file (boot loc fs txt)))
     = [0; fEntries t - 1])
  /\
  (fKeys fd "T" = None ->
   requested (final (GetEntriesAndEventNr file (boot loc fs txt))) = [])
  /\
  requested (final (GetNumbers file (boot loc fs txt))) = [].
Proof.
  intros Hopen. split; [|split].
  - intros t Htree Hlong.
    rewrite (GetEntriesAndEventNr_tree (boot loc fs txt) file fd t Hopen Htree).
    cbn [final]. autorewrite with proc.
    destruct (at_second_test_fields t
                (counted file (fEntries t) (boot loc fs txt)))
      as (_ & _ & _ & _ & ->).
    autorewrite with proc. unfold sub64.
    rewrite wrap64_small by lia. reflexivity.
  - intros Htree.
    rewrite (GetEntriesAndEventNr_no_tree (boot loc fs txt) file fd Hopen Htree).
    cbn [final]. autorewrite with proc. reflexivity.
  - destruct (fKeys fd "T") as [t|] eqn:Htree.
    + rewrite (GetNumbers_tree (boot loc fs txt) file fd Hopen t Htree).
      cbn [final]. autorewrite with proc. reflexivity.
    + rewrite (GetNumbers_no_tree (boot loc fs txt) file fd Hopen Htree).
      cbn [final]. autorewrite with proc. reflexivity.
Qed.

Lemma X7_entries_asked_for_witness :
  requested (final (GetEntriesAndEventNr "run.root"
                      (boot id (disk file_bare) no_text)))
  = [0; 2] /\
  requested (final (GetNumbers "run.root" (boot id (disk file_bare) no_text)))
  = [].
Proof.
  destruct (X7_entries_asked_for id (disk file_bare) no_text "run.root"
              file_bare eq_refl) as (HB & _ & HN).
  split.
  - apply (HB tree_bare eq_refl). split; [discriminate | reflexivity].
  - exact HN.
Defined.

(** ** What of a tree a report depends on *)

(** X8.  The report of GetEntries.C depends on a tree with the leaf only
    through the count, the values of the leaf at entry 0 and at the entry
    nEntries-1 it asks for last, and what the buffer of the leaf holds
    before an entry is loaded: two files that agree on these get the same
    report. *)
Theorem X8_GetEntries_reads_two_entries
  loc fs fs' txt file fd fd' t t' lf lf' :
  fs (loc file) = Some fd ->
  fs' (loc file) = Some fd' ->
  fKeys fd "T" = Some t ->
  fKeys fd' "T" = Some t' ->
  fLeaves t "eventnumber" = Some lf ->
  fLeaves t' "eventnumber" = Some lf' ->
  fEntries t = fEntries t' ->
  fValue lf = fValue lf' ->
  fColumn lf 0 = fColumn lf' 0 ->
  fColumn lf (sub32 (wrap32 (fEntries t)) 1)
  = fColumn lf' (sub32 (wrap32 (fEntries t)) 1) ->
  console (final (GetEntries file (boot loc fs txt)))
  = console (final (GetEntries file (boot loc fs' txt))).
Proof.
  intros Hopen Hopen' Htree Htree' Hl Hl' Hn Hv H0 Hlast.
  rewrite (GetEntries_leaf (boot loc fs txt) file fd Hopen t Htree lf Hl).
  rewrite (GetEntries_leaf (boot loc fs' txt) file fd' Hopen' t' Htree' lf' Hl').
  cbn [final]. autorewrite with proc. cbn [redirect boot].
  rewrite !buffer_load, !buffer_counted.
  unfold inside. rewrite <- Hn, <- Hv, <- H0, <- Hlast. reflexivity.
Qed.

Lemma X8_GetEntries_reads_two_entries_witness :
  console (final (GetEntries "run.root" (boot id (disk file3) no_text)))
  = console (final (GetEntries "run.root" (boot id (disk file3') no_text))).
Proof.
  apply (X8_GetEntries_reads_two_entries id (disk file3) (disk file3') no_text
           "run.root" file3 file3' tree3 tree3' leaf3 leaf3');
    reflexivity.
Defined.

Lemma sync_first_bound t p b :
  fBranches t "DST#Sync" = Some b ->
  sync (at_first_test t p)
  = if inside t 0 then Some (fObjects b 0) else Some (fOnBind b).
Proof.
  intros Hb. rewrite at_first_test_load, Hb, sync_load. reflexivity.
Qed.

Lemma sync_second_bound t p b :
  fBranches t "DST#Sync" = Some b ->
  sync (at_second_test t p)
  = if inside t (sub64 (fEntries t) 1)
    then Some (fObjects b (sub64 (fEntries t) 1))
    else sync (at_first_test t p).
Proof.
  intros Hb. rewrite at_second_test_load, sync_load.
  rewrite at_first_test_fAddress, Hb. reflexivity.
Qed.

(** X9.  The report of GetEntriesAndEventNr.C depends on a tree with the
    branch "DST#Sync" only through the count, the event numbers of the
    objects at entry 0 and at entry N-1, and what the pointer gets when the
    address is set: two files that agree on these get the same report. *)
Theorem X9_GetEntriesAndEventNr_reads_two_entries
  loc fs fs' txt file fd fd' t t' b b' :
  fs (loc file) = Some fd ->
  fs' (loc file) = Some fd' ->
  fKeys fd "T" = Some t ->
  fKeys fd' "T" = Some t' ->
  fBranches t "DST#Sync" = Some b ->
  fBranches t' "DST#Sync" = Some b' ->
  fEntries t = fEntries t' ->
  fOnBind b = fOnBind b' ->
  EventNumber (fObjects b 0) = EventNumber (fObjects b' 0) ->
  EventNumber (fObjects b (sub64 (fEntries t) 1))
  = EventNumber (fObjects b' (sub64 (fEntries t) 1)) ->
  console (final (GetEntriesAndEventNr file (boot loc fs txt)))
  = console (final (GetEntriesAndEventNr file (boot loc fs' txt))).
Proof.
  intros Hopen Hopen' Htree Htree' Hb Hb' Hn Hbind H0 Hlast.
  rewrite (GetEntriesAndEventNr_tree (boot loc fs txt) file fd t Hopen Htree).
  rewrite (GetEntriesAndEventNr_tree (boot loc fs' txt) file fd' t' Hopen' Htree').
  cbn [final].
  set (p0 := counted file (fEntries t) (boot loc fs txt)).
  set (q0 := counted file (fEntries t') (boot loc fs' txt)).
  destruct (at_second_test_fields t p0) as (Hc & Hr & _).
  destruct (at_second_test_fields t' q0) as (Hc' & Hr' & _).
  autorewrite with proc. rewrite Hr, Hc, Hr', Hc'.
  rewrite (sync_second_bound t p0 b Hb), (sync_second_bound t' q0 b' Hb').
  rewrite (sync_first_bound t p0 b Hb), (sync_first_bound t' q0 b' Hb').
  subst p0 q0. autorewrite with proc. cbn [redirect boot].
  assert (Hi : forall e, inside t' e = inside t e).
  { intros e. unfold inside. rewrite Hn. reflexivity. }
  rewrite !Hi, <- Hn, <- Hbind.
  assert (E : forall x y : bool, forall o1 o2 o1' o2' ob,
            EventNumber o1 = EventNumber o1' ->
            EventNumber o2 = EventNumber o2' ->
            event (if x then Some o1 else ob)
            = event (if x then Some o1' else ob) /\
            event (if y then Some o2
                   else if x then Some o1 else ob)
            = event (if y then Some o2'
                     else if x then Some o1' else ob)).
  { intros x y o1 o2 o1' o2' ob E1 E2.
    destruct x, y; cbn; auto. }
  destruct (E (inside t 0) (inside t (sub64 (fEntries t) 1))
              _ _ _ _ (Some (fOnBind b)) H0 Hlast) as [-> ->].
  reflexivity.
Qed.

Lemma X9_GetEntriesAndEventNr_reads_two_entries_witness :
  console (final (GetEntriesAndEventNr "run.root"
                    (boot id (disk file3) no_text)))
  = console (final (GetEntriesAndEventNr "run.root"
                      (boot id (disk file3') no_text))).
Proof.
  apply (X9_GetEntriesAndEventNr_reads_two_entries id (disk file3)
           (disk file3') no_text "run.root" file3 file3' tree3 tree3'
           branch3 branch3');
    reflexivity.
Defined.

(** ** Reading a report back *)

Lemma to_int_not_nil z : Z.to_int z <> Pos Nil /\ Z.to_int z <> Neg Nil.
Proof.
  destruct z as [|q|q]; cbn; split; try discriminate;
    intros [= H]; exact (DecimalPos.Unsigned.to_uint_nonnil q H).
Qed.

(** The decimal representation of an integer parses back to that integer. *)
Lemma show_parses z :
  option_map Z.of_int (NilZero.int_of_string (show z)) = Some z.
Proof.
  unfold show. destruct (to_int_not_nil z) as [Hp Hn].
  rewrite (NilZero.isi (Z.to_int z) Hp Hn). cbn.
  rewrite DecimalZ.of_to. reflexivity.
Qed.

Lemma show_inj n n' : show n = show n' -> n = n'.
Proof.
  intros H.
  pose proof (show_parses n) as Hn. rewrite H, show_parses in Hn.
  congruence.
Qed.

Lemma append_inj_r (s u v : string) : (s ++ u = s ++ v)%string -> u = v.
Proof.
  induction s as [|a s IH]; cbn [String.append].
  - auto.
  - intros [= H]. auto.
Qed.

(** X10.  A report determines the three numbers it was printed from: two
    runs of a console macro on the same file name that print the same four
    lines have printed the same count and the same first and last event
    number. *)
Theorem X10_report_determines_numbers file n first last n' first' last' :
  report file n first last = report file n' first' last' ->
  n = n' /\ first = first' /\ last = last'.
Proof.
  unfold report. intros [= Hn Hf Hl].
  apply append_inj_r, show_inj in Hn.
  apply append_inj_r, show_inj in Hf.
  apply append_inj_r, show_inj in Hl.
  auto.
Qed.

Lemma X10_report_determines_numbers_witness :
  3 = 3 /\ 101 = 101 /\ 103 = 103.
Proof.
  apply (X10_report_determines_numbers "run.root" 3 101 103 3 101 103).
  reflexivity.
Defined.

(** ** The name given and the path opened *)

(** X11.  The lines after the first depend on the file name only through
    the path it resolves to: under two resolvers that send two names to the
    same path, a console macro ends the same way and prints the same lines
    but for the name in the first line, and GetNumbers.C appends the same
    lines to numbers.txt. *)
Theorem X11_name_and_resolved_path loc loc' fs txt file file' :
  loc file = loc' file' ->
  (faulted (GetEntries file (boot loc fs txt))
   = faulted (GetEntries file' (boot loc' fs txt)) /\
   exists rest,
     console (final (GetEntries file (boot loc fs txt)))
     = Line ("Getting events for " ++ file) :: rest /\
     console (final (GetEntries file' (boot loc' fs txt)))
     = Line ("Getting events for " ++ file') :: rest)
  /\
  (faulted (GetEntriesAndEventNr file (boot loc fs txt))
   = faulted (GetEntriesAndEventNr file' (boot loc' fs txt)) /\
   exists rest,
     console (final (GetEntriesAndEventNr file (boot loc fs txt)))
     = Line ("Getting events for " ++ file) :: rest /\
     console (final (GetEntriesAndEventNr file' (boot loc' fs txt)))
     = Line ("Getting events for " ++ file') :: rest)
  /\
  texts (final (GetNumbers file (boot loc fs txt))) "numbers.txt"
  = texts (final (GetNumbers file' (boot loc' fs txt))) "numbers.txt".
Proof.
  intros Hpath.
  destruct (fs (loc file)) as [fd|] eqn:Hopen.
  - assert (Hopen' : fs (loc' file') = Some fd) by (rewrite <- Hpath; exact Hopen).
    destruct (fKeys fd "T") as [t|] eqn:Htree.
    + split; [|split].
      * destruct (fLeaves t "eventnumber") as [lf|] eqn:Hl.
        -- rewrite (GetEntries_leaf (boot loc fs txt) file fd Hopen t Htree lf Hl).
           rewrite (GetEntries_leaf (boot loc' fs txt) file' fd Hopen' t Htree lf Hl).
           cbn [faulted final]. split; [reflexivity|].
           autorewrite with proc. cbn [redirect boot].
           rewrite !buffer_load, !buffer_counted.
           eexists. split; reflexivity.
        -- rewrite (GetEntries_no_leaf (boot loc fs txt) file fd Hopen t Htree Hl).
           rewrite (GetEntries_no_leaf (boot loc' fs txt) file' fd Hopen' t Htree Hl).
           cbn [faulted final]. split; [reflexivity|].
           autorewrite with proc. eexists. split; reflexivity.
      * rewrite (GetEntriesAndEventNr_tree (boot loc fs txt) file fd t Hopen Htree).
        rewrite (GetEntriesAndEventNr_tree (boot loc' fs txt) file' fd t Hopen' Htree).
        cbn [faulted final]. split; [reflexivity|].
        set (p0 := counted file (fEntries t) (boot loc fs txt)).
        set (q0 := counted file' (fEntries t) (boot loc' fs txt)).
        destruct (sync_tests_depend t q0 p0) as [-> ->].
        { subst p0 q0. autorewrite with proc. reflexivity. }
        destruct (at_second_test_fields t p0) as (Hc & Hr & _).
        destruct (at_second_test_fields t q0) as (Hc' & Hr' & _).
        autorewrite with proc. rewrite Hr, Hc, Hr', Hc'. subst p0 q0.
        autorewrite with proc. eexists. split; reflexivity.
      * destruct (GetNumbers_tree_text loc fs txt file fd t Hopen Htree)
          as (_ & _ & ->).
        destruct (GetNumbers_tree_text loc' fs txt file' fd t Hopen' Htree)
          as (_ & _ & ->).
        reflexivity.
    + split; [|split].
      * rewrite (GetEntries_no_tree (boot loc fs txt) file fd Hopen Htree).
        rewrite (GetEntries_no_tree (boot loc' fs txt) file' fd Hopen' Htree).
        cbn [faulted final]. split; [reflexivity|].
        autorewrite with proc. eexists. split; reflexivity.
      * rewrite (GetEntriesAndEventNr_no_tree (boot loc fs txt) file fd Hopen Htree).
        rewrite (GetEntriesAndEventNr_no_tree (boot loc' fs txt) file' fd Hopen' Htree).
        cbn [faulted final]. split; [reflexivity|].
        autorewrite with proc. eexists. split; reflexivity.
      * destruct (GetNumbers_no_tree_text loc fs txt file fd Hopen Htree)
          as (_ & _ & ->).
        destruct (GetNumbers_no_tree_text loc' fs txt file' fd Hopen' Htree)
          as (_ & _ & ->).
        reflexivity.
  - assert (Hopen' : fs (loc' file') = None) by (rewrite <- Hpath; exact Hopen).
    rewrite (GetEntries_unopened (boot loc fs txt) file Hopen).
    rewrite (GetEntries_unopened (boot loc' fs txt) file' Hopen').
    rewrite (GetEntriesAndEventNr_unopened (boot loc fs txt) file Hopen).
    rewrite (GetEntriesAndEventNr_unopened (boot loc' fs txt) file' Hopen').
    rewrite (GetNumbers_unopened (boot loc fs txt) file Hopen).
    rewrite (GetNumbers_unopened (boot loc' fs txt) file' Hopen').
    cbn [faulted final]. autorewrite with proc.
    split; [|split].
    + split; [reflexivity|]. exists []. split; reflexivity.
    + split; [reflexivity|]. exists []. split; reflexivity.
    + reflexivity.
Qed.

Lemma X11_name_and_resolved_path_witness :
  console (final (GetEntries "lfn:run" (boot (fun _ => "run.root")
                                          (disk file3) no_text)))
  = Line "Getting events for lfn:run"
    :: tl (report "run.root" 3 101 103).
Proof.
  destruct (X11_name_and_resolved_path (fun _ => "run.root") id (disk file3)
              no_text "lfn:run" "run.root" eq_refl)
    as ((_ & rest & H1 & H2) & _).
  rewrite H1. f_equal.
  vm_compute in H2. injection H2 as <-. reflexivity.
Defined.
